(** * A shallow embedding of the React URL shortener ([src/App.jsx])

    The application keeps one in-memory table [urlMap] from shortcodes to
    records [{ originalUrl, expiry }].  Three components use it:
    - [Home.handleSubmit] validates the form fields and calls
      [App.handleShorten], which picks a shortcode ([App.createShortCode])
      and inserts a record;
    - the effect of [Redirector] looks a code up and either reports that
      it is unknown, reports that it has expired (and asks for its removal
      through [App.removeExpired]), or arms a one second redirect timer;
    - [Stats] only reads the table and is left out, as are the calls of
      [logger], which only write to the console.

    Conventions of the model.
    - A JavaScript string is a [string]: one [ascii] per UTF-16 code unit,
      so the model covers the strings whose code units are below 256.
    - A JavaScript number is a [Z] (milliseconds, minutes); [NaN] is the
      [None] of an [option Z].  The source computes with IEEE doubles, which
      agree with [Z] as long as the values are safe integers.
    - [Date.now()] and [window.location.origin] are inputs ([now], [origin]).
    - [nanoid(6)] is a library call: its successive results are given by an
      oracle [nanoid6 : nat -> string], and the number of calls made so far
      is threaded through the functions that draw from it.
    - React state updates are explicit state passing: a handler takes the
      current table and returns the next one.  React renders again between
      two events, so the [urlMap] a handler closes over is the current
      state, the one its queued update is applied to. *)

From Stdlib Require Import ZArith Ascii String List Bool Lia.
From stdpp Require Import base option strings gmap fin_maps.

Local Open Scope string_scope.
Local Open Scope Z_scope.

(** ** Strings and the two regular expressions *)

Definition code_unit (c : ascii) : Z := Z.of_N (N_of_ascii c).

Definition in_range (lo hi c : ascii) : bool :=
  (code_unit lo <=? code_unit c) && (code_unit c <=? code_unit hi).

(** [str.startsWith(p)], returning what follows the prefix. *)
Fixpoint strip_prefix (p s : string) : option string :=
  match p, s with
  | EmptyString, _ => Some s
  | String a p', String b s' =>
      if Ascii.eqb a b then strip_prefix p' s' else None
  | String _ _, EmptyString => None
  end.

(** Line terminators: the characters that [.] does not match (no [s]
    flag).  U+2028 and U+2029 are outside the modelled alphabet. *)
Definition line_terminator (c : ascii) : bool :=
  (code_unit c =? 10) || (code_unit c =? 13).

(** [.+] tried at the head of [s]: nothing anchors the end of the match,
    so one character that is not a line terminator is enough. *)
Definition dot_plus (s : string) : bool :=
  match s with
  | String c _ => negb (line_terminator c)
  | EmptyString => false
  end.

(** [:\/\/.+] tried at the head of [s]. *)
Definition slashes_then_dot_plus (s : string) : bool :=
  match strip_prefix "://" s with
  | Some rest => dot_plus rest
  | None => false
  end.

(** [originalUrl.match(/^https?:\/\/.+/)] is not [null].  The optional
    [s] is tried first and, when the rest fails, dropped. *)
Definition url_ok (originalUrl : string) : bool :=
  match strip_prefix "http" originalUrl with
  | Some rest =>
      match strip_prefix "s" rest with
      | Some rest' =>
          slashes_then_dot_plus rest' || slashes_then_dot_plus rest
      | None => slashes_then_dot_plus rest
      end
  | None => false
  end.

(** The class [[a-zA-Z0-9_-]]. *)
Definition shortcode_char (c : ascii) : bool :=
  in_range "a" "z" c || in_range "A" "Z" c || in_range "0" "9" c
  || Ascii.eqb c "_" || Ascii.eqb c "-".

Fixpoint all_chars (p : ascii -> bool) (s : string) : bool :=
  match s with
  | EmptyString => true
  | String c rest => p c && all_chars p rest
  end.

(** [/^[a-zA-Z0-9_-]{4,20}$/.test(customCode)]: without the [m] flag the
    two anchors are the two ends of the input. *)
Definition shortcode_ok (customCode : string) : bool :=
  all_chars shortcode_char customCode
  && (4 <=? Z.of_nat (String.length customCode))
  && (Z.of_nat (String.length customCode) <=? 20).

(** ** Numbers *)

(** [Number.MAX_SAFE_INTEGER], that is [2^53 - 1].  The numbers of the
    source are doubles.  Every integer up to this magnitude is a double,
    and a sum, a difference or a product whose exact value is such an
    integer is computed exactly; so is the conversion of a run of digits
    whose value is one.  On these the [Z] arithmetic below is the
    arithmetic of the source.  Beyond them the source rounds and the
    model does not: the statements that give a number exactly are made
    within this range. *)
Definition MAX_SAFE_INTEGER : Z := 9007199254740991.

Definition safe_integer (x : Z) : Prop := Z.abs x <= MAX_SAFE_INTEGER.

(** The numbers [handleShorten] goes through, for a creation instant
    [now] and a validity [validityMinutes], are all safe integers:
    [validityMinutes], [validityMinutes * 60], [validityMinutes * 60 *
    1000] and its sum with [now] are bounded by the left-hand side. *)
Definition exact_expiry (now validityMinutes : Z) : Prop :=
  Z.abs now + Z.abs validityMinutes * 60000 <= MAX_SAFE_INTEGER.

(** ** [parseInt] *)

(** [StrWhiteSpaceChar] within the modelled alphabet: TAB, LF, VT, FF, CR,
    SP and NBSP. *)
Definition white_space (c : ascii) : bool :=
  let n := code_unit c in
  ((9 <=? n) && (n <=? 13)) || (n =? 32) || (n =? 160).

Fixpoint trim_start (s : string) : string :=
  match s with
  | String c rest => if white_space c then trim_start rest else s
  | EmptyString => EmptyString
  end.

(** Value of a digit in radix [R], if it is one. *)
Definition radix_digit (R : Z) (c : ascii) : option Z :=
  let n := code_unit c in
  let d := if (48 <=? n) && (n <=? 57) then Some (n - 48)
           else if (97 <=? n) && (n <=? 122) then Some (n - 87)
           else if (65 <=? n) && (n <=? 90) then Some (n - 55)
           else None in
  match d with
  | Some v => if v <? R then Some v else None
  | None => None
  end.

(** The longest run of radix-[R] digits at the head of [s]. *)
Fixpoint digits_prefix (R : Z) (s : string) : list Z :=
  match s with
  | String c rest =>
      match radix_digit R c with
      | Some d => d :: digits_prefix R rest
      | None => []
      end
  | EmptyString => []
  end.

Definition math_int (R : Z) (ds : list Z) : Z :=
  fold_left (fun acc d => acc * R + d) ds 0.

(** [parseInt(s)] with no radix argument: leading white space is skipped,
    one sign is read, a [0x] or [0X] prefix selects radix 16, and the
    longest run of digits is the value; [None] is [NaN] (no digit).  The
    result here is the exact integer; the source's is the double nearest
    to it, which is the same number when it is a safe integer. *)
Definition parseInt (s : string) : option Z :=
  let S0 := trim_start s in
  let sign := match S0 with String "-" _ => -1 | _ => 1 end in
  let S1 := match S0 with
            | String "+" r => r
            | String "-" r => r
            | _ => S0
            end in
  let '(R, S2) := match S1 with
                  | String "0" (String "x" r) => (16, r)
                  | String "0" (String "X" r) => (16, r)
                  | _ => (10, S1)
                  end in
  match digits_prefix R S2 with
  | [] => None
  | ds => Some (sign * math_int R ds)
  end.

(** [parseInt(validity) || 30]: [NaN] and [0] (and [-0]) are the falsy
    numbers. *)
Definition validity_or_30 (validity : string) : Z :=
  match parseInt validity with
  | Some n => if n =? 0 then 30 else n
  | None => 30
  end.

(** The default as the specification words it, for comparison: 30
    whenever the parse fails or the parsed value is not positive. *)
Definition validity_as_specified (validity : string) : Z :=
  match parseInt validity with
  | Some n => if n <=? 0 then 30 else n
  | None => 30
  end.

(** ** The table [urlMap] *)

(** A stored record, [{ originalUrl, expiry }]. *)
Record UrlRecord := { originalUrl : string; expiry : Z }.

(** [urlMap] is a plain object: [useState({})], afterwards only object
    literals built by spread.  Its own properties are a finite map; every
    such object inherits from [Object.prototype]. *)
Abbreviation registry := (gmap string UrlRecord).

(** The property names of [Object.prototype] in a browser (ECMAScript
    20.1.3 and Annex B.2.2). *)
Definition Object_prototype_names : list string :=
  [ "constructor"; "hasOwnProperty"; "isPrototypeOf"; "propertyIsEnumerable";
    "toLocaleString"; "toString"; "valueOf"; "__proto__";
    "__defineGetter__"; "__defineSetter__"; "__lookupGetter__";
    "__lookupSetter__" ].

Definition inherited_name (key : string) : bool :=
  existsb (String.eqb key) Object_prototype_names.

(** The value of [urlMap[key]]: the own record when there is one, else
    what [Object.prototype] has under that name (a function, or the
    prototype itself for [__proto__]), else [undefined]. *)
Inductive property :=
  | Own (record : UrlRecord)
  | Inherited
  | Undefined.

Definition get (urlMap : registry) (key : string) : property :=
  match urlMap !! key with
  | Some record => Own record
  | None => if inherited_name key then Inherited else Undefined
  end.

(** Objects and functions are truthy, [undefined] is not. *)
Definition truthy (p : property) : bool :=
  match p with
  | Undefined => false
  | _ => true
  end.

(** [record.expiry] and [record.originalUrl]; they are [undefined] on the
    inherited values. *)
Definition expiry_of (p : property) : option Z :=
  match p with
  | Own record => Some (expiry record)
  | _ => None
  end.

Definition originalUrl_of (p : property) : option string :=
  match p with
  | Own record => Some (originalUrl record)
  | _ => None
  end.

(** [now > e] where [e] may be [undefined]: [undefined] converts to [NaN]
    and every comparison with [NaN] is false. *)
Definition js_gt (now : Z) (e : option Z) : bool :=
  match e with
  | Some e => e <? now
  | None => false
  end.

(** Truthiness of a string: only the empty string is falsy. *)
Definition truthy_string (s : string) : bool :=
  match s with
  | EmptyString => false
  | String _ _ => true
  end.

(** ** Failures of a creation request *)

Inductive failure := InvalidUrl | InvalidShortcode | DuplicateShortcode.

(** The text shown to the user ([setError]); the third one is the message
    of the [Error] thrown by [createShortCode]. *)
Definition message_of (f : failure) : string :=
  match f with
  | InvalidUrl => "URL must start with http:// or https://"
  | InvalidShortcode => "Custom shortcode must be 4-20 chars alphanumeric/_/-"
  | DuplicateShortcode => "Custom shortcode already exists"
  end.

(** Result of a call that may throw. *)
Inductive outcome (A : Type) :=
  | Return (a : A)
  | Throw (f : failure).
Arguments Return {A} a.
Arguments Throw {A} f.

(** ** The application root ([App]) *)

Section App.

(** [window.location.origin]. *)
Variable origin : string.

(** The successive results of [nanoid(6)]. *)
Variable nanoid6 : nat -> string.

(** The [do ... while (urlMap[newCode])] loop of [createShortCode].
    [drawn] counts the calls of [nanoid] made so far; [fuel] bounds the
    number of iterations ([None]: the bound was reached while every draw
    collided). *)
Fixpoint generate (fuel : nat) (urlMap : registry) (drawn : nat)
  : option (string * nat) :=
  match fuel with
  | O => None
  | S fuel' =>
      let newCode := nanoid6 drawn in
      if truthy (get urlMap newCode)
      then generate fuel' urlMap (S drawn)
      else Some (newCode, S drawn)
  end.

Definition createShortCode (fuel : nat) (urlMap : registry) (drawn : nat)
    (customCode : string) : option (outcome string * nat) :=
  if truthy_string customCode then
    if truthy (get urlMap customCode)
    then Some (Throw DuplicateShortcode, drawn)
    else Some (Return customCode, drawn)
  else
    match generate fuel urlMap drawn with
    | Some (newCode, drawn') => Some (Return newCode, drawn')
    | None => None
    end.

(** [handleShorten]: the returned table is [urlMap] after the queued
    update [{ ...prev, [shortcode]: { originalUrl, expiry } }].  The
    stored [expiry] is the source's number under [exact_expiry]. *)
Definition handleShorten (fuel : nat) (now : Z) (urlMap : registry)
    (drawn : nat) (originalUrl customCode : string)
    (validityMinutes : Z) : option (outcome string * registry * nat) :=
  match createShortCode fuel urlMap drawn customCode with
  | None => None
  | Some (Throw f, drawn') => Some (Throw f, urlMap, drawn')
  | Some (Return shortcode, drawn') =>
      let expiry := now + validityMinutes * 60 * 1000 in
      let shortenedUrl := origin ++ "/" ++ shortcode in
      Some (Return shortenedUrl,
            <[shortcode := {| originalUrl := originalUrl;
                              expiry := expiry |}]> urlMap,
            drawn')
  end.

(** [removeExpired]: copy, [delete copy[code]]. *)
Definition removeExpired (code : string) (urlMap : registry) : registry :=
  delete code urlMap.

(** ** The creation view ([Home]) *)

(** What the view shows after a submit: [error] and [shortUrl]. *)
Record HomeView := { error : option string; shortUrl : option string }.

Definition HomeView_initial : HomeView :=
  {| error := None; shortUrl := None |}.

Definition failed_with (f : failure) (view : HomeView) : Prop :=
  error view = Some (message_of f).

(** The view after a failure [f]: [setError(...)], [shortUrl] as it
    was. *)
Definition rejected (f : failure) (view : HomeView) : HomeView :=
  {| error := Some (message_of f); shortUrl := shortUrl view |}.

(** The view after a success under [shortcode]: [setError(null)], then
    [setShortUrl(result)]. *)
Definition accepted (shortcode : string) : HomeView :=
  {| error := None; shortUrl := Some (origin ++ "/" ++ shortcode) |}.

(** [handleSubmit] for the field values [originalUrl], [customCode] and
    [validity]; [view] is what was shown before. *)
Definition handleSubmit (fuel : nat) (now : Z) (urlMap : registry)
    (drawn : nat) (view : HomeView)
    (originalUrl customCode validity : string)
  : option (HomeView * registry * nat) :=
  if negb (url_ok originalUrl) then
    Some (rejected InvalidUrl view, urlMap, drawn)
  else if truthy_string customCode && negb (shortcode_ok customCode) then
    Some (rejected InvalidShortcode view, urlMap, drawn)
  else
    let validityMinutes := validity_or_30 validity in
    match handleShorten fuel now urlMap drawn originalUrl customCode
            validityMinutes with
    | None => None
    | Some (Return result, urlMap', drawn') =>
        Some ({| error := None; shortUrl := Some result |}, urlMap', drawn')
    | Some (Throw f, urlMap', drawn') =>
        Some (rejected f view, urlMap', drawn')
    end.

(** The table after the insertion made by [handleShorten]. *)
Definition inserted (now : Z) (originalUrl validity shortcode : string)
    (urlMap : registry) : registry :=
  <[shortcode := {| originalUrl := originalUrl;
                    expiry := now + validity_or_30 validity * 60 * 1000 |}]>
    urlMap.

End App.

(** ** The resolution view ([Redirector]) *)

(** The three texts of [message]: ['Redirecting...'], the initial one,
    and the two that end in ['Short URL not found.'] and
    ['This link has expired.']. *)
Inductive Message := Redirecting | NotFound | Expired.

(** A timer armed by [setTimeout]: when the clock reaches [due] it assigns
    [href] to [window.location.href] ([None]: the value [undefined]).
    [armed_for] records the [code] of the effect run that armed it; the
    closure itself only keeps [record]. *)
Record Timer := { armed_for : string; due : Z; href : option string }.

(** What the view holds: the text shown and the timers not yet fired.  No
    call of [clearTimeout] exists and the effect returns no cleanup. *)
Record RedirectorView := { message : Message; pending : list Timer }.

(** [useState('Redirecting...')], no timer armed. *)
Definition RedirectorView_initial : RedirectorView :=
  {| message := Redirecting; pending := [] |}.

(** One run of the effect, for the route parameter [code] at instant
    [now].  It runs on mount and again whenever [code] or [urlMap]
    changes. *)
Definition Redirector_effect (now : Z) (code : string) (urlMap : registry)
    (view : RedirectorView) : RedirectorView * registry :=
  let record := get urlMap code in
  if negb (truthy record) then
    ({| message := NotFound; pending := pending view |}, urlMap)
  else if js_gt now (expiry_of record) then
    ({| message := Expired; pending := pending view |},
     removeExpired code urlMap)
  else
    ({| message := message view;
        pending := pending view ++
                   [ {| armed_for := code; due := now + 1000;
                        href := originalUrl_of record |} ] |},
     urlMap).

(** The timer whose callback runs next: the one that is due first and,
    among timers due at the same instant, the one armed first. *)
Fixpoint next_timer (pending : list Timer) : option Timer :=
  match pending with
  | [] => None
  | tm :: rest =>
      match next_timer rest with
      | Some tm' => if due tm' <? due tm then Some tm' else Some tm
      | None => Some tm
      end
  end.

(** What the page does when the clock reaches [t] and nothing else has
    happened since the last run of the effect: when the next timer is due
    by then, its callback assigns [href] to [window.location.href], which
    leaves the page ([Some href]); otherwise nothing ([None]).  What the
    timers after it do is not modelled: the page is being left. *)
Definition navigation_at (t : Z) (view : RedirectorView)
  : option (option string) :=
  match next_timer (pending view) with
  | Some tm => if due tm <=? t then Some (href tm) else None
  | None => None
  end.

(** ** The listing view ([Stats]) *)

(** [Object.keys(urlMap).length === 0]: the text ['No URLs shortened
    yet.'] is shown in place of the table.  Only own keys are counted. *)
Definition Stats_empty (urlMap : registry) : bool :=
  Nat.eqb (size urlMap) 0.

(** The third cell of the row of one entry, rendered at instant [now]:
    [Math.max(0, Math.floor(expiresInMs / 60000))].  When [now], [expiry]
    and their difference are safe integers the subtraction of the source
    is exact, and the double quotient is too close to the exact one to
    have another floor (it is off by less than [2^-16], and an exact
    quotient that is no integer is at least [1/60000] away from one). *)
Definition expiresInMin (now : Z) (record : UrlRecord) : Z :=
  let expiresInMs := expiry record - now in
  Z.max 0 (expiresInMs / 60000).

(** ** The tables the application can hold *)

Section Reachable.

Variable origin : string.
Variable nanoid6 : nat -> string.

(** [urlMap] starts as [{}]; [setUrlMap] is called by [handleShorten],
    which only [handleSubmit] calls, and by [removeExpired], which only
    the effect of [Redirector] calls. *)
Inductive reachable : registry -> Prop :=
  | reachable_initial : reachable ∅
  | reachable_submit fuel now urlMap drawn view originalUrl customCode
      validity view' urlMap' drawn' :
      reachable urlMap ->
      handleSubmit origin nanoid6 fuel now urlMap drawn view
        originalUrl customCode validity = Some (view', urlMap', drawn') ->
      reachable urlMap'
  | reachable_resolve now code urlMap view :
      reachable urlMap ->
      reachable (Redirector_effect now code urlMap view).2.

End Reachable.

(** * Properties *)

(** ** Examples of the string functions *)

Example parseInt_plain : parseInt "45" = Some 45.
Proof. reflexivity. Qed.

Example parseInt_spaces_sign : parseInt "  -12.5" = Some (-12).
Proof. reflexivity. Qed.

Example parseInt_hex : parseInt "0x1F" = Some 31.
Proof. reflexivity. Qed.

Example parseInt_NaN : parseInt "abc" = None /\ parseInt "" = None.
Proof. split; reflexivity. Qed.

Example url_ok_examples :
  url_ok "https://example.com" = true /\ url_ok "http://x" = true
  /\ url_ok "ftp://bad" = false /\ url_ok "https://" = false
  /\ url_ok "xhttps://a.com" = false.
Proof. repeat split; reflexivity. Qed.

Example shortcode_ok_examples :
  shortcode_ok "mycode" = true /\ shortcode_ok "abc" = false
  /\ shortcode_ok "my code" = false /\ shortcode_ok "" = false
  /\ shortcode_ok "propertyIsEnumerable" = true
  /\ shortcode_ok "propertyIsEnumerable1" = false.
Proof. repeat split; reflexivity. Qed.

Example validity_or_30_examples :
  validity_or_30 "" = 30 /\ validity_or_30 "0" = 30 /\ validity_or_30 "45" = 45
  /\ validity_or_30 "abc" = 30 /\ validity_or_30 "-5" = -5.
Proof. repeat split; reflexivity. Qed.

(** ** What the two patterns accept *)

Lemma strip_prefix_spec p s rest :
  strip_prefix p s = Some rest <-> s = p ++ rest.
Proof.
  revert s. induction p as [| a p IH]; intros s.
  - change ("" ++ rest) with rest. cbn. split; congruence.
  - change (String a p ++ rest) with (String a (p ++ rest)).
    destruct s as [| b s]; cbn; [split; discriminate |].
    destruct (Ascii.eqb a b) eqn:E.
    + apply Ascii.eqb_eq in E as ->. rewrite IH. split; congruence.
    + apply Ascii.eqb_neq in E. split; [discriminate | congruence].
Qed.

Lemma slashes_then_dot_plus_spec s :
  slashes_then_dot_plus s = true
  <-> exists c rest, s = "://" ++ String c rest /\ line_terminator c = false.
Proof.
  unfold slashes_then_dot_plus. split.
  - destruct (strip_prefix "://" s) as [r |] eqn:E; [| discriminate].
    apply strip_prefix_spec in E as ->.
    destruct r as [| c rest]; cbn; [discriminate |].
    intros H. exists c, rest. split; [reflexivity |].
    now apply negb_true_iff.
  - intros (c & rest & -> & Hc).
    change (strip_prefix "://" ("://" ++ String c rest))
      with (Some (String c rest)).
    cbn [dot_plus]. now rewrite Hc.
Qed.

(** [url_ok] holds of the strings that begin with [http://] or
    [https://] followed by a character other than a line terminator. *)
Lemma url_ok_spec s :
  url_ok s = true
  <-> exists c rest,
        (s = "http://" ++ String c rest \/ s = "https://" ++ String c rest)
        /\ line_terminator c = false.
Proof.
  unfold url_ok. split.
  - destruct (strip_prefix "http" s) as [r |] eqn:E; [| discriminate].
    apply strip_prefix_spec in E as ->.
    assert (Hplain : slashes_then_dot_plus r = true ->
              exists c rest,
                ("http" ++ r = "http://" ++ String c rest
                 \/ "http" ++ r = "https://" ++ String c rest)
                /\ line_terminator c = false).
    { intros (c & rest & -> & Hc)%slashes_then_dot_plus_spec.
      exists c, rest. split; [now left | assumption]. }
    destruct (strip_prefix "s" r) as [r' |] eqn:E'; [| exact Hplain].
    intros [H | H]%orb_true_iff; [| now apply Hplain].
    apply strip_prefix_spec in E' as ->.
    apply slashes_then_dot_plus_spec in H as (c & rest & -> & Hc).
    exists c, rest. split; [now right | assumption].
  - intros (c & rest & Hs & Hc).
    assert (Hok : slashes_then_dot_plus ("://" ++ String c rest) = true)
      by (apply slashes_then_dot_plus_spec; eauto).
    destruct Hs as [-> | ->].
    + change (strip_prefix "http" ("http://" ++ String c rest))
        with (Some ("://" ++ String c rest)).
      change (strip_prefix "s" ("://" ++ String c rest)) with (@None string).
      exact Hok.
    + change (strip_prefix "http" ("https://" ++ String c rest))
        with (Some ("s://" ++ String c rest)).
      change (strip_prefix "s" ("s://" ++ String c rest))
        with (Some ("://" ++ String c rest)).
      apply orb_true_iff. left. exact Hok.
Qed.

(** [shortcode_ok] holds of the strings of 4 to 20 characters, all of
    them letters, digits, [_] or [-]. *)
Lemma shortcode_ok_spec s :
  shortcode_ok s = true
  <-> all_chars shortcode_char s = true
      /\ (4 <= String.length s <= 20)%nat.
Proof.
  unfold shortcode_ok. rewrite !andb_true_iff, !Z.leb_le. intuition lia.
Qed.

(** ** Lookups in [urlMap] *)

Lemma get_own (urlMap : registry) key record :
  urlMap !! key = Some record -> get urlMap key = Own record.
Proof. intros H. unfold get. now rewrite H. Qed.

Lemma truthy_get_false (urlMap : registry) key :
  truthy (get urlMap key) = false ->
  urlMap !! key = None /\ inherited_name key = false.
Proof.
  unfold get. destruct (urlMap !! key); [discriminate |].
  destruct (inherited_name key); [discriminate | auto].
Qed.

(** No property name of [Object.prototype] has six characters. *)
Lemma inherited_name_length key :
  inherited_name key = true -> String.length key <> 6%nat.
Proof.
  unfold inherited_name, Object_prototype_names. cbn [existsb].
  rewrite !orb_true_iff, !String.eqb_eq.
  intros H.
  repeat (destruct H as [H | H]; [subst key; cbn; discriminate |]).
  discriminate.
Qed.

Lemma get_fresh_length6 (urlMap : registry) key :
  String.length key = 6%nat -> urlMap !! key = None ->
  get urlMap key = Undefined.
Proof.
  intros Hlen Hnone. unfold get. rewrite Hnone.
  destruct (inherited_name key) eqn:E; [| reflexivity].
  now apply inherited_name_length in E.
Qed.

Lemma truthy_string_true s : truthy_string s = true <-> s <> "".
Proof. destruct s; cbn; split; congruence. Qed.

(** ** The generation loop *)

Section Generation.

Variable nanoid6 : nat -> string.

(** [nanoid(6)] returns six characters. *)
Hypothesis nanoid6_length : forall i, String.length (nanoid6 i) = 6%nat.

(** What the loop returns is the first draw that [urlMap] does not
    answer for. *)
Lemma generate_sound fuel (urlMap : registry) drawn newCode drawn' :
  generate nanoid6 fuel urlMap drawn = Some (newCode, drawn') ->
  exists k : nat,
    newCode = nanoid6 (drawn + k)%nat /\ drawn' = S (drawn + k)
    /\ get urlMap newCode = Undefined
    /\ forall j : nat, (j < k)%nat ->
         truthy (get urlMap (nanoid6 (drawn + j)%nat)) = true.
Proof.
  revert drawn. induction fuel as [| fuel IH]; intros drawn; cbn.
  - discriminate.
  - destruct (truthy (get urlMap (nanoid6 drawn))) eqn:E.
    + intros H. destruct (IH _ H) as (k & -> & -> & Hu & Hbefore).
      exists (S k). replace (drawn + S k)%nat with (S drawn + k)%nat by lia.
      repeat split; auto.
      intros [| j] Hj.
      * now replace (drawn + 0)%nat with drawn by lia.
      * replace (drawn + S j)%nat with (S drawn + j)%nat by lia.
        apply Hbefore. lia.
    + intros [= <- <-]. exists 0%nat.
      replace (drawn + 0)%nat with drawn by lia.
      repeat split; auto.
      * destruct (get urlMap (nanoid6 drawn)); [discriminate .. | reflexivity].
      * intros j Hj. lia.
Qed.

(** The loop ends as soon as a draw is free, given that many iterations. *)
Lemma generate_complete (urlMap : registry) k :
  forall fuel drawn,
    urlMap !! nanoid6 (drawn + k)%nat = None -> (k < fuel)%nat ->
    exists newCode drawn',
      generate nanoid6 fuel urlMap drawn = Some (newCode, drawn').
Proof.
  induction k as [| k IH]; intros fuel drawn Hfree Hfuel.
  - destruct fuel as [| fuel]; [lia |]. cbn.
    replace (drawn + 0)%nat with drawn in Hfree by lia.
    rewrite (get_fresh_length6 _ _ (nanoid6_length drawn) Hfree). cbn. eauto.
  - destruct fuel as [| fuel]; [lia |]. cbn.
    destruct (truthy (get urlMap (nanoid6 drawn))); [| eauto].
    apply IH; [| lia].
    now replace (S drawn + k)%nat with (drawn + S k)%nat by lia.
Qed.

Lemma generate_length fuel (urlMap : registry) drawn newCode drawn' :
  generate nanoid6 fuel urlMap drawn = Some (newCode, drawn') ->
  String.length newCode = 6%nat /\ urlMap !! newCode = None.
Proof.
  intros H. destruct (generate_sound _ _ _ _ _ H) as (k & -> & _ & Hu & _).
  split; [apply nanoid6_length |].
  unfold get in Hu. destruct (urlMap !! nanoid6 (drawn + k)); [discriminate | reflexivity].
Qed.

End Generation.

(** ** Creation requests *)

Section Creation.

Variable origin : string.
Variable nanoid6 : nat -> string.
Hypothesis nanoid6_length : forall i, String.length (nanoid6 i) = 6%nat.

Lemma handleSubmit_invalid_url fuel now (urlMap : registry) drawn view
    originalUrl customCode validity :
  url_ok originalUrl = false ->
  handleSubmit origin nanoid6 fuel now urlMap drawn view
    originalUrl customCode validity
  = Some (rejected InvalidUrl view, urlMap, drawn).
Proof. intros H. unfold handleSubmit. now rewrite H. Qed.

Lemma handleSubmit_invalid_shortcode fuel now (urlMap : registry) drawn view
    originalUrl customCode validity :
  url_ok originalUrl = true -> customCode <> "" ->
  shortcode_ok customCode = false ->
  handleSubmit origin nanoid6 fuel now urlMap drawn view
    originalUrl customCode validity
  = Some (rejected InvalidShortcode view, urlMap, drawn).
Proof.
  intros Hu Hc Hs. unfold handleSubmit. rewrite Hu, Hs.
  apply truthy_string_true in Hc. now rewrite Hc.
Qed.

Lemma handleSubmit_custom fuel now (urlMap : registry) drawn view
    originalUrl customCode validity :
  url_ok originalUrl = true -> customCode <> "" ->
  shortcode_ok customCode = true ->
  handleSubmit origin nanoid6 fuel now urlMap drawn view
    originalUrl customCode validity
  = if truthy (get urlMap customCode)
    then Some (rejected DuplicateShortcode view, urlMap, drawn)
    else Some (accepted origin customCode,
               inserted now originalUrl validity customCode urlMap, drawn).
Proof.
  intros Hu Hc Hs. unfold handleSubmit, handleShorten, createShortCode.
  rewrite Hu, Hs. apply truthy_string_true in Hc. rewrite Hc. cbn.
  now destruct (truthy (get urlMap customCode)).
Qed.

Lemma handleSubmit_generated fuel now (urlMap : registry) drawn view
    originalUrl validity :
  url_ok originalUrl = true ->
  handleSubmit origin nanoid6 fuel now urlMap drawn view
    originalUrl "" validity
  = match generate nanoid6 fuel urlMap drawn with
    | Some (newCode, drawn') =>
        Some (accepted origin newCode,
              inserted now originalUrl validity newCode urlMap, drawn')
    | None => None
    end.
Proof.
  intros Hu. unfold handleSubmit, handleShorten, createShortCode.
  rewrite Hu. cbn.
  now destruct (generate nanoid6 fuel urlMap drawn) as [[newCode drawn'] |].
Qed.

(** Every run of [handleSubmit] that ends is of one of four kinds. *)
Lemma handleSubmit_cases fuel now (urlMap : registry) drawn view
    originalUrl customCode validity view' urlMap' drawn' :
  handleSubmit origin nanoid6 fuel now urlMap drawn view
    originalUrl customCode validity = Some (view', urlMap', drawn') ->
  (exists f, view' = rejected f view /\ urlMap' = urlMap /\ drawn' = drawn)
  \/ (exists shortcode,
        view' = accepted origin shortcode
        /\ urlMap' = inserted now originalUrl validity shortcode urlMap
        /\ get urlMap shortcode = Undefined
        /\ (customCode <> "" -> shortcode = customCode /\ drawn' = drawn)
        /\ (customCode = "" ->
            generate nanoid6 fuel urlMap drawn = Some (shortcode, drawn'))).
Proof.
  destruct (url_ok originalUrl) eqn:Hu.
  2:{ rewrite handleSubmit_invalid_url by assumption.
      intros [= <- <- <-]. left. eauto. }
  destruct customCode as [| c rest].
  - rewrite handleSubmit_generated by assumption.
    destruct (generate nanoid6 fuel urlMap drawn) as [[newCode d'] |] eqn:G;
      [| discriminate].
    intros [= <- <- <-]. right. exists newCode.
    destruct (generate_sound _ _ _ _ _ _ G) as (k & _ & _ & Hund & _).
    repeat split; auto; congruence.
  - destruct (shortcode_ok (String c rest)) eqn:Hs.
    2:{ rewrite handleSubmit_invalid_shortcode by (auto; discriminate).
        intros [= <- <- <-]. left. eauto. }
    rewrite handleSubmit_custom by (auto; discriminate).
    destruct (truthy (get urlMap (String c rest))) eqn:T.
    + intros [= <- <- <-]. left. eauto.
    + intros [= <- <- <-]. right. exists (String c rest).
      repeat split; auto; try discriminate.
      destruct (get urlMap (String c rest)); [discriminate .. | reflexivity].
Qed.

Lemma message_of_inj f g : message_of f = message_of g -> f = g.
Proof. destruct f, g; cbn; intros H; congruence. Qed.

(** A custom code that is an own key is refused and nothing changes. *)
Lemma handleSubmit_duplicate fuel now (urlMap : registry) drawn view
    originalUrl customCode validity record :
  url_ok originalUrl = true -> shortcode_ok customCode = true ->
  urlMap !! customCode = Some record ->
  handleSubmit origin nanoid6 fuel now urlMap drawn view
    originalUrl customCode validity
  = Some (rejected DuplicateShortcode view, urlMap, drawn).
Proof.
  intros Hu Hs Hr.
  assert (customCode <> "") by (intros ->; discriminate).
  rewrite handleSubmit_custom by assumption.
  now rewrite (get_own _ _ _ Hr).
Qed.

(** A custom code that is no own key is used as it is, unless it is a
    property name of [Object.prototype]. *)
Lemma handleSubmit_custom_fresh fuel now (urlMap : registry) drawn view
    originalUrl customCode validity :
  url_ok originalUrl = true -> shortcode_ok customCode = true ->
  urlMap !! customCode = None -> inherited_name customCode = false ->
  handleSubmit origin nanoid6 fuel now urlMap drawn view
    originalUrl customCode validity
  = Some (accepted origin customCode,
          inserted now originalUrl validity customCode urlMap, drawn).
Proof.
  intros Hu Hs Hr Hi.
  assert (customCode <> "") by (intros ->; discriminate).
  rewrite handleSubmit_custom by assumption.
  unfold get. now rewrite Hr, Hi.
Qed.

(** C3: when [originalUrl] does not match [^https?://.+], the submit
    fails with [InvalidUrl] and the table is the one it was, whatever the
    other fields are; and no failing submit of any kind changes the
    table. *)
Theorem C3_invalid_url_rejected fuel now (urlMap : registry) drawn view
    originalUrl customCode validity :
  (url_ok originalUrl = false ->
   exists view',
     handleSubmit origin nanoid6 fuel now urlMap drawn view
       originalUrl customCode validity = Some (view', urlMap, drawn)
     /\ failed_with InvalidUrl view')
  /\ (forall view' urlMap' drawn',
        handleSubmit origin nanoid6 fuel now urlMap drawn view
          originalUrl customCode validity = Some (view', urlMap', drawn') ->
        error view' <> None -> urlMap' = urlMap).
Proof.
  split.
  - intros Hu. exists (rejected InvalidUrl view). split; [| reflexivity].
    now apply handleSubmit_invalid_url.
  - intros view' urlMap' drawn' H Herr.
    apply handleSubmit_cases in H as [(f & _ & -> & _) | (c & -> & _)];
      [reflexivity | now elim Herr].
Qed.

(** C9: a custom code that is given (not the empty string) and does not
    match [^[a-zA-Z0-9_-]{4,20}$], with a valid URL, makes the submit fail
    with [InvalidShortcode] and leaves the table as it was. *)
Theorem C9_invalid_shortcode_rejected fuel now (urlMap : registry) drawn view
    originalUrl customCode validity :
  url_ok originalUrl = true -> customCode <> "" ->
  shortcode_ok customCode = false ->
  exists view',
    handleSubmit origin nanoid6 fuel now urlMap drawn view
      originalUrl customCode validity = Some (view', urlMap, drawn)
    /\ failed_with InvalidShortcode view'.
Proof.
  intros Hu Hc Hs. exists (rejected InvalidShortcode view).
  split; [| reflexivity]. now apply handleSubmit_invalid_shortcode.
Qed.

(** Each property name of [Object.prototype] matches the shortcode
    pattern, and none is ever accepted as a custom code. *)
Lemma handleSubmit_inherited_refused fuel now (urlMap : registry) drawn view
    originalUrl customCode validity :
  url_ok originalUrl = true -> inherited_name customCode = true ->
  shortcode_ok customCode = true
  /\ handleSubmit origin nanoid6 fuel now urlMap drawn view
       originalUrl customCode validity
     = Some (rejected DuplicateShortcode view, urlMap, drawn).
Proof.
  intros Hu Hi.
  assert (Hs : shortcode_ok customCode = true).
  { revert Hi. unfold inherited_name, Object_prototype_names. cbn [existsb].
    rewrite !orb_true_iff, !String.eqb_eq. intros H.
    repeat (destruct H as [H | H]; [subst customCode; reflexivity |]).
    discriminate. }
  split; [exact Hs |].
  assert (customCode <> "") by (intros ->; discriminate).
  rewrite handleSubmit_custom by assumption.
  unfold get. rewrite Hi. now destruct (urlMap !! customCode).
Qed.

(** C4 (the code departs from it): ["constructor"] matches the shortcode
    pattern and is no key of the empty table, yet the submit fails with
    [DuplicateShortcode], because [urlMap["constructor"]] is the function
    inherited from [Object.prototype]. *)
Theorem C4_constructor_refused fuel now drawn view validity :
  shortcode_ok "constructor" = true
  /\ (∅ : registry) !! "constructor" = None
  /\ handleSubmit origin nanoid6 fuel now ∅ drawn view
       "https://a.com" "constructor" validity
     = Some (rejected DuplicateShortcode view, ∅, drawn).
Proof.
  split; [reflexivity |]. split; [apply lookup_empty |].
  rewrite handleSubmit_custom; [| reflexivity | discriminate | reflexivity].
  unfold get. now rewrite lookup_empty.
Qed.

(** C5: when no custom code is supplied, every submit that passes the URL
    check and ends inserts its record under a code of exactly six
    characters that the generation loop returned and that was no key of
    the table, and that code is the one in the short URL; and the loop
    does end once some draw is free and it is given that many
    iterations. *)
Theorem C5_generated_code_fresh now (urlMap : registry) drawn view
    originalUrl validity :
  url_ok originalUrl = true ->
  (forall fuel view' urlMap' drawn',
     handleSubmit origin nanoid6 fuel now urlMap drawn view
       originalUrl "" validity = Some (view', urlMap', drawn') ->
     exists shortcode record,
       generate nanoid6 fuel urlMap drawn = Some (shortcode, drawn')
       /\ String.length shortcode = 6%nat
       /\ urlMap !! shortcode = None
       /\ urlMap' = <[shortcode := record]> urlMap
       /\ error view' = None
       /\ shortUrl view' = Some (origin ++ "/" ++ shortcode))
  /\ (forall k fuel,
        urlMap !! nanoid6 (drawn + k)%nat = None -> (k < fuel)%nat ->
        is_Some (handleSubmit origin nanoid6 fuel now urlMap drawn view
                   originalUrl "" validity)).
Proof.
  intros Hu. split.
  - intros fuel view' urlMap' drawn'.
    rewrite handleSubmit_generated by assumption.
    destruct (generate nanoid6 fuel urlMap drawn) as [[newCode d'] |] eqn:G;
      [| discriminate].
    intros [= <- <- <-].
    destruct (generate_length _ nanoid6_length _ _ _ _ _ G) as [Hlen Hfree].
    exists newCode. eexists. repeat split; eauto.
  - intros k fuel Hfree Hfuel.
    rewrite handleSubmit_generated by assumption.
    destruct (generate_complete _ nanoid6_length urlMap k fuel drawn Hfree Hfuel)
      as (newCode & d' & ->).
    eauto.
Qed.


(** What a submit shows as its error, if it ends. *)
Lemma handleSubmit_error_any_validity fuel now (urlMap : registry) drawn view
    originalUrl customCode validity validity' :
  (fun r => error r.1.1)
    <$> handleSubmit origin nanoid6 fuel now urlMap drawn view
          originalUrl customCode validity
  = (fun r => error r.1.1)
    <$> handleSubmit origin nanoid6 fuel now urlMap drawn view
          originalUrl customCode validity'.
Proof.
  destruct (url_ok originalUrl) eqn:Hu.
  2:{ now rewrite !handleSubmit_invalid_url by assumption. }
  destruct customCode as [| c rest].
  - rewrite !handleSubmit_generated by assumption.
    now destruct (generate nanoid6 fuel urlMap drawn) as [[newCode d'] |].
  - destruct (shortcode_ok (String c rest)) eqn:Hs.
    + rewrite !handleSubmit_custom by (auto; discriminate).
      now destruct (truthy (get urlMap (String c rest))).
    + now rewrite !handleSubmit_invalid_shortcode by (auto; discriminate).
Qed.

(** C2 (as the code has it): as long as the numbers involved are safe
    integers, the record stored by a successful submit expires at the
    creation instant plus [validityMinutes * 60000], where
    [validityMinutes] is 30 when [parseInt] gives [NaN] or 0 and is the
    parsed value otherwise, a negative one included; and the validity
    field never decides whether the submit fails. *)
Theorem C2_expiry_from_validity fuel now (urlMap : registry) drawn view
    originalUrl customCode validity :
  (forall view' urlMap' drawn',
     handleSubmit origin nanoid6 fuel now urlMap drawn view
       originalUrl customCode validity = Some (view', urlMap', drawn') ->
     error view' = None ->
     exact_expiry now (validity_or_30 validity) ->
     exists shortcode validityMinutes,
       shortUrl view' = Some (origin ++ "/" ++ shortcode)
       /\ urlMap' = <[shortcode :=
                       {| originalUrl := originalUrl;
                          expiry := now + validityMinutes * 60000 |}]> urlMap
       /\ (parseInt validity = None -> validityMinutes = 30)
       /\ (parseInt validity = Some 0 -> validityMinutes = 30)
       /\ (forall n, parseInt validity = Some n -> n <> 0 ->
             validityMinutes = n))
  /\ (forall validity',
        (fun r => error r.1.1)
          <$> handleSubmit origin nanoid6 fuel now urlMap drawn view
                originalUrl customCode validity
        = (fun r => error r.1.1)
          <$> handleSubmit origin nanoid6 fuel now urlMap drawn view
                originalUrl customCode validity').
Proof.
  split; [| intros; apply handleSubmit_error_any_validity].
  intros view' urlMap' drawn' H Herr _.
  apply handleSubmit_cases in H as [(f & -> & _) | (c & -> & -> & _)];
    [discriminate |].
  exists c, (validity_or_30 validity). split; [reflexivity |].
  split.
  { unfold inserted. do 3 f_equal. lia. }
  unfold validity_or_30.
  destruct (parseInt validity) as [n |]; repeat split; try congruence.
  - intros [= ->]. reflexivity.
  - intros m [= <-] Hn. apply Z.eqb_neq in Hn. now rewrite Hn.
Qed.

(** C6: after [shorten("https://a.com", "mycode", 1)] at instant [T] on a
    table without [mycode], resolving [mycode] at
    [T + 120000] shows [Expired] and removes the entry, and the next
    resolution of [mycode] shows [NotFound]. *)
Theorem C6_expire_then_not_found fuel T (urlMap : registry) drawn view
    rview later :
  urlMap !! "mycode" = None ->
  exists hview urlMap1,
    handleSubmit origin nanoid6 fuel T urlMap drawn view
      "https://a.com" "mycode" "1" = Some (hview, urlMap1, drawn)
    /\ error hview = None
    /\ urlMap1 !! "mycode"
       = Some {| originalUrl := "https://a.com"; expiry := T + 60000 |}
    /\ exists rview1 urlMap2,
         Redirector_effect (T + 120000) "mycode" urlMap1 rview
         = (rview1, urlMap2)
         /\ message rview1 = Expired
         /\ urlMap2 = removeExpired "mycode" urlMap1
         /\ urlMap2 !! "mycode" = None
         /\ message (Redirector_effect later "mycode" urlMap2 rview1).1
            = NotFound.
Proof.
  intros Hfree.
  rewrite handleSubmit_custom_fresh by (auto; reflexivity).
  do 2 eexists. split; [reflexivity |]. split; [reflexivity |].
  assert (Hrec : inserted T "https://a.com" "1" "mycode" urlMap !! "mycode"
                 = Some {| originalUrl := "https://a.com";
                           expiry := T + 60000 |}).
  { unfold inserted. rewrite lookup_insert_eq. reflexivity. }
  split; [exact Hrec |].
  unfold Redirector_effect at 1. rewrite (get_own _ _ _ Hrec). cbn.
  replace (T + 60000 <? T + 120000) with true by (symmetry; apply Z.ltb_lt; lia).
  do 2 eexists. split; [reflexivity |]. split; [reflexivity |].
  split; [reflexivity |].
  assert (Hgone : removeExpired "mycode"
                    (inserted T "https://a.com" "1" "mycode" urlMap)
                  !! "mycode" = None)
    by apply lookup_delete_eq.
  split; [exact Hgone |].
  unfold Redirector_effect, get. now rewrite Hgone.
Qed.

End Creation.

(** ** Resolution *)

(** The timer that one run of the effect arms for a record. *)
Lemma Redirector_effect_valid now code (urlMap : registry) view record :
  urlMap !! code = Some record -> now <= expiry record ->
  Redirector_effect now code urlMap view
  = ({| message := message view;
        pending := (pending view ++
                    [ {| armed_for := code; due := now + 1000;
                         href := Some (originalUrl record) |} ])%list |},
     urlMap).
Proof.
  intros Hr Hle. unfold Redirector_effect. rewrite (get_own _ _ _ Hr). cbn.
  now replace (expiry record <? now) with false
    by (symmetry; apply Z.ltb_ge; lia).
Qed.

Lemma Redirector_effect_expired now code (urlMap : registry) view record :
  urlMap !! code = Some record -> expiry record < now ->
  Redirector_effect now code urlMap view
  = ({| message := Expired; pending := pending view |},
     removeExpired code urlMap).
Proof.
  intros Hr Hlt. unfold Redirector_effect. rewrite (get_own _ _ _ Hr). cbn.
  now replace (expiry record <? now) with true
    by (symmetry; apply Z.ltb_lt; lia).
Qed.

(** C1: the effect compares with a strict [>].  For a record whose expiry
    is the current instant it leaves the message alone (on mount:
    [Redirecting]), arms the redirect and removes nothing; and it turns
    the message to [Expired] exactly when the code has a record and the
    current instant is strictly greater than its expiry. *)
Theorem C1_expiry_boundary_strict now code (urlMap : registry) view :
  (forall record,
     urlMap !! code = Some record -> expiry record = now ->
     Redirector_effect now code urlMap view
     = ({| message := message view;
           pending := (pending view ++
                       [ {| armed_for := code; due := now + 1000;
                            href := Some (originalUrl record) |} ])%list |},
        urlMap)
     /\ message (Redirector_effect now code urlMap RedirectorView_initial).1
        = Redirecting)
  /\ (message view <> Expired ->
      message (Redirector_effect now code urlMap view).1 = Expired
      <-> exists record, urlMap !! code = Some record /\ now > expiry record).
Proof.
  split.
  - intros record Hr He.
    rewrite !(Redirector_effect_valid _ _ _ _ record) by (auto; lia).
    split; reflexivity.
  - intros Hview. split.
    + destruct (urlMap !! code) as [record |] eqn:Hr.
      * destruct (Z_lt_le_dec (expiry record) now) as [Hlt | Hle].
        -- intros _. exists record. split; [reflexivity | lia].
        -- rewrite (Redirector_effect_valid _ _ _ _ record) by auto.
           cbn. intros H. now elim Hview.
      * unfold Redirector_effect, get. rewrite Hr.
        destruct (inherited_name code); cbn; [| discriminate].
        intros H. now elim Hview.
    + intros (record & Hr & Hgt).
      now rewrite (Redirector_effect_expired _ _ _ _ record) by (auto; lia).
Qed.

(** C7: removing a code twice leaves the table as removing it once does,
    and removing a code that is no key changes nothing ([removeExpired] is
    a total function: there is no failing case). *)
Theorem C7_removeExpired_idempotent code (urlMap : registry) :
  removeExpired code (removeExpired code urlMap) = removeExpired code urlMap
  /\ (urlMap !! code = None -> removeExpired code urlMap = urlMap).
Proof.
  unfold removeExpired. split.
  - apply map_eq. intros key. destruct (decide (code = key)) as [-> | Hne].
    + now rewrite !lookup_delete_eq.
    + now rewrite !lookup_delete_ne.
  - intros Hnone. apply map_eq. intros key.
    destruct (decide (code = key)) as [-> | Hne].
    + now rewrite lookup_delete_eq.
    + now rewrite lookup_delete_ne.
Qed.

(** The next timer is one of the pending ones. *)
Lemma next_timer_In pending tm :
  next_timer pending = Some tm -> In tm pending.
Proof.
  revert tm. induction pending as [| a rest IH]; cbn; [discriminate |].
  intros tm. destruct (next_timer rest) as [tm' |].
  - destruct (due tm' <? due a); intros [= <-]; [right | left]; auto.
  - intros [= <-]. now left.
Qed.

Lemma next_timer_None pending : next_timer pending = None -> pending = [].
Proof.
  destruct pending as [| a rest]; [reflexivity |]. cbn.
  destruct (next_timer rest) as [tm' |]; [| discriminate].
  destruct (due tm' <? due a); discriminate.
Qed.

(** A timer armed last and due no earlier than the others does not
    change which timer is next. *)
Lemma next_timer_app_later pending tm later :
  next_timer pending = Some tm ->
  (forall tm', In tm' pending -> due tm' <= due later) ->
  next_timer (pending ++ [later])%list = Some tm.
Proof.
  revert tm. induction pending as [| a rest IH]; [discriminate |].
  intros tm Hnext Hle.
  change (next_timer ((a :: rest) ++ [later])%list)
    with (match next_timer (rest ++ [later])%list with
          | Some tm' => if due tm' <? due a then Some tm' else Some a
          | None => Some a
          end).
  cbn in Hnext. destruct (next_timer rest) as [tm' |] eqn:Hrest.
  - rewrite (IH tm' eq_refl) by (intros x Hx; apply Hle; now right).
    exact Hnext.
  - apply next_timer_None in Hrest. subst rest. cbn.
    replace (due later <? due a) with false; [exact Hnext |].
    symmetry. apply Z.ltb_ge. apply Hle. now left.
Qed.

(** C8 (as the code has it): a run of the effect cancels nothing.  Every
    timer that was pending stays pending, whatever the new code is; the
    run only re-evaluates the resolution for the new code and, when that
    code has a record that has not expired, arms one more timer, due one
    second later.  So the timer that was next before the run, armed at
    an earlier instant, is still the next one after it. *)
Theorem C8_timers_never_cancelled now code (urlMap : registry) view :
  (forall tm, In tm (pending view) ->
     In tm (pending (Redirector_effect now code urlMap view).1))
  /\ (forall record,
        urlMap !! code = Some record -> now <= expiry record ->
        pending (Redirector_effect now code urlMap view).1
        = (pending view ++ [ {| armed_for := code; due := now + 1000;
                                href := Some (originalUrl record) |} ])%list)
  /\ (forall tm,
        next_timer (pending view) = Some tm ->
        (forall tm', In tm' (pending view) -> due tm' <= now + 1000) ->
        next_timer (pending (Redirector_effect now code urlMap view).1)
        = Some tm).
Proof.
  split; [| split].
  - intros tm Hin. unfold Redirector_effect.
    destruct (negb (truthy (get urlMap code))); [exact Hin |].
    destruct (js_gt now (expiry_of (get urlMap code))); [exact Hin |].
    cbn. apply in_or_app. now left.
  - intros record Hr Hle.
    now rewrite (Redirector_effect_valid _ _ _ _ record).
  - intros tm Hnext Hdue. unfold Redirector_effect.
    destruct (negb (truthy (get urlMap code))); [exact Hnext |].
    destruct (js_gt now (expiry_of (get urlMap code))); [exact Hnext |].
    cbn [fst pending]. now apply next_timer_app_later.
Qed.

(** ** Concrete runs *)

(** The scenario [shorten("https://example.com", "", 30)] at instant
    [T = 1000]: one entry, expiring at [T + 1800000]. *)
Example scenario_generated :
  handleSubmit "http://localhost:3000" (fun _ => "abcdef") 1 1000 ∅ 0
    HomeView_initial "https://example.com" "" "30"
  = Some ({| error := None;
             shortUrl := Some "http://localhost:3000/abcdef" |},
          <["abcdef" := {| originalUrl := "https://example.com";
                           expiry := 1801000 |}]> ∅,
          1%nat).
Proof. reflexivity. Qed.

(** The scenario [shorten("ftp://bad", "", 30)]: the table stays empty. *)
Example scenario_bad_url :
  handleSubmit "http://localhost:3000" (fun _ => "abcdef") 1 1000 ∅ 0
    HomeView_initial "ftp://bad" "" "30"
  = Some ({| error := Some "URL must start with http:// or https://";
             shortUrl := None |}, ∅, 0%nat).
Proof. reflexivity. Qed.

(** A draw that collides is thrown away and the next one is taken. *)
Example scenario_collision :
  let nanoid6 := fun i : nat =>
                   match i with O => "taken1" | _ => "free22" end in
  let urlMap : registry :=
    <["taken1" := {| originalUrl := "https://b.com"; expiry := 5 |}]> ∅ in
  generate nanoid6 2 urlMap 0 = Some ("free22", 2%nat)
  /\ generate nanoid6 1 urlMap 0 = None.
Proof. split; reflexivity. Qed.

Lemma C1_witness :
  let record := {| originalUrl := "https://a.com"; expiry := 5000 |} in
  let urlMap : registry := <["abcd" := record]> ∅ in
  Redirector_effect 5000 "abcd" urlMap RedirectorView_initial
  = ({| message := Redirecting;
        pending := [ {| armed_for := "abcd"; due := 6000;
                        href := Some "https://a.com" |} ] |}, urlMap)
  /\ message (Redirector_effect 5000 "abcd" urlMap RedirectorView_initial).1
     = Redirecting.
Proof.
  intros record urlMap.
  apply (proj1 (C1_expiry_boundary_strict 5000 "abcd" urlMap
                  RedirectorView_initial) record);
    reflexivity.
Defined.

(** With the validity ["-5"] the stored record expires five minutes
    before the creation instant [1000000], at [700000], and not at
    [1000000 + 30 * 60000] as a default of 30 would give. *)
Lemma C2_counterexample :
  parseInt "-5" = Some (-5)
  /\ validity_as_specified "-5" = 30
  /\ handleSubmit "http://localhost:3000" (fun _ => "abcdef") 1 1000000 ∅ 0
       HomeView_initial "https://a.com" "mycode" "-5"
     = Some ({| error := None;
                shortUrl := Some "http://localhost:3000/mycode" |},
             <["mycode" := {| originalUrl := "https://a.com";
                              expiry := 700000 |}]> ∅,
             0%nat)
  /\ 700000 <> 1000000 + validity_as_specified "-5" * 60000.
Proof. repeat split; try reflexivity. discriminate. Qed.

Lemma C2_witness :
  exists shortcode validityMinutes,
    shortUrl (accepted "http://localhost:3000" "mycode")
    = Some ("http://localhost:3000" ++ "/" ++ shortcode)
    /\ inserted 1000000 "https://a.com" "-5" "mycode" ∅
       = <[shortcode := {| originalUrl := "https://a.com";
                           expiry := 1000000 + validityMinutes * 60000 |}]> ∅
    /\ (parseInt "-5" = None -> validityMinutes = 30)
    /\ (parseInt "-5" = Some 0 -> validityMinutes = 30)
    /\ (forall n, parseInt "-5" = Some n -> n <> 0 -> validityMinutes = n).
Proof.
  apply (proj1 (C2_expiry_from_validity "http://localhost:3000"
                  (fun _ => "abcdef") 1 1000000 ∅ 0 HomeView_initial
                  "https://a.com" "mycode" "-5") _ _ 0%nat);
    [reflexivity | reflexivity | vm_compute; discriminate].
Defined.

Lemma C3_witness :
  exists view',
    handleSubmit "http://localhost:3000" (fun _ => "abcdef") 1 1000 ∅ 0
      HomeView_initial "ftp://bad" "mycode" "30" = Some (view', ∅, 0%nat)
    /\ failed_with InvalidUrl view'.
Proof.
  apply (proj1 (C3_invalid_url_rejected "http://localhost:3000"
                  (fun _ => "abcdef") 1 1000 ∅ 0 HomeView_initial
                  "ftp://bad" "mycode" "30")).
  reflexivity.
Defined.

Lemma C5_witness :
  let nanoid6 := fun i : nat =>
                   match i with O => "taken1" | _ => "free22" end in
  let urlMap : registry :=
    <["taken1" := {| originalUrl := "https://b.com"; expiry := 5 |}]> ∅ in
  is_Some (handleSubmit "http://localhost:3000" nanoid6 2 1000 urlMap 0
             HomeView_initial "https://example.com" "" "30").
Proof.
  intros nanoid6 urlMap.
  apply (proj2 (C5_generated_code_fresh "http://localhost:3000" nanoid6
                  (fun i => match i with O => eq_refl | _ => eq_refl end)
                  1000 urlMap 0%nat HomeView_initial
                  "https://example.com" "30" eq_refl) 1%nat 2%nat).
  - reflexivity.
  - lia.
Defined.

Lemma C6_witness :
  exists hview urlMap1,
    handleSubmit "http://localhost:3000" (fun _ => "abcdef") 1 1000 ∅ 0
      HomeView_initial "https://a.com" "mycode" "1"
    = Some (hview, urlMap1, 0%nat)
    /\ error hview = None
    /\ urlMap1 !! "mycode"
       = Some {| originalUrl := "https://a.com"; expiry := 1000 + 60000 |}
    /\ exists rview1 urlMap2,
         Redirector_effect (1000 + 120000) "mycode" urlMap1
           RedirectorView_initial = (rview1, urlMap2)
         /\ message rview1 = Expired
         /\ urlMap2 = removeExpired "mycode" urlMap1
         /\ urlMap2 !! "mycode" = None
         /\ message (Redirector_effect 130000 "mycode" urlMap2 rview1).1
            = NotFound.
Proof.
  apply (C6_expire_then_not_found "http://localhost:3000" (fun _ => "abcdef")
           1 1000 ∅ 0 HomeView_initial RedirectorView_initial 130000).
  reflexivity.
Defined.

Lemma C7_witness : removeExpired "ghost" (∅ : registry) = ∅.
Proof.
  apply (proj2 (C7_removeExpired_idempotent "ghost" ∅)). reflexivity.
Defined.

(** The view resolves [first] at instant 0, then the code changes to
    [second] at instant 500: the timer armed for [first] is still
    pending and is the next to run, so at instant 1000 the page is sent
    to the URL of [first]. *)
Lemma C8_counterexample :
  let urlMap : registry :=
    <["first" := {| originalUrl := "https://a.com"; expiry := 100000 |}]>
      (<["second" := {| originalUrl := "https://b.com"; expiry := 100000 |}]>
         ∅) in
  let view1 := (Redirector_effect 0 "first" urlMap RedirectorView_initial).1 in
  let view2 := (Redirector_effect 500 "second" urlMap view1).1 in
  let tm := {| armed_for := "first"; due := 1000;
               href := Some "https://a.com" |} in
  pending view1 = [tm]
  /\ In tm (pending view2)
  /\ next_timer (pending view2) = Some tm
  /\ 500 < due tm
  /\ navigation_at 999 view2 = None
  /\ navigation_at (due tm) view2 = Some (Some "https://a.com").
Proof.
  cbv zeta. repeat split; try reflexivity. vm_compute. now left.
Qed.

Lemma C8_witness :
  let record := {| originalUrl := "https://b.com"; expiry := 100000 |} in
  let urlMap : registry := <["second" := record]> ∅ in
  let tm := {| armed_for := "first"; due := 1000;
               href := Some "https://a.com" |} in
  let view := {| message := Redirecting; pending := [tm] |} in
  next_timer (pending (Redirector_effect 500 "second" urlMap view).1)
  = Some tm.
Proof.
  intros record urlMap tm view.
  apply (proj2 (proj2 (C8_timers_never_cancelled 500 "second" urlMap view))
           tm).
  - reflexivity.
  - intros tm' [<- | []]. cbn. lia.
Defined.

Lemma C9_witness :
  exists view',
    handleSubmit "http://localhost:3000" (fun _ => "abcdef") 1 1000 ∅ 0
      HomeView_initial "https://a.com" "abc" "30" = Some (view', ∅, 0%nat)
    /\ failed_with InvalidShortcode view'.
Proof.
  apply (C9_invalid_shortcode_rejected "http://localhost:3000"
           (fun _ => "abcdef") 1 1000 ∅ 0 HomeView_initial
           "https://a.com" "abc" "30");
    [reflexivity | discriminate | reflexivity].
Defined.


(** * Further properties of the code *)

Section Further.

Variable origin : string.
Variable nanoid6 : nat -> string.
Hypothesis nanoid6_length : forall i, String.length (nanoid6 i) = 6%nat.

(** The five ways in which a submit ends, each with its condition. *)
Lemma handleSubmit_classify fuel now (urlMap : registry) drawn view
    originalUrl customCode validity view' urlMap' drawn' :
  handleSubmit origin nanoid6 fuel now urlMap drawn view
    originalUrl customCode validity = Some (view', urlMap', drawn') ->
  (url_ok originalUrl = false
   /\ view' = rejected InvalidUrl view /\ urlMap' = urlMap /\ drawn' = drawn)
  \/ (url_ok originalUrl = true /\ customCode <> ""
      /\ shortcode_ok customCode = false
      /\ view' = rejected InvalidShortcode view
      /\ urlMap' = urlMap /\ drawn' = drawn)
  \/ (url_ok originalUrl = true /\ customCode <> ""
      /\ shortcode_ok customCode = true
      /\ truthy (get urlMap customCode) = true
      /\ view' = rejected DuplicateShortcode view
      /\ urlMap' = urlMap /\ drawn' = drawn)
  \/ (url_ok originalUrl = true /\ customCode <> ""
      /\ shortcode_ok customCode = true
      /\ get urlMap customCode = Undefined
      /\ view' = accepted origin customCode
      /\ urlMap' = inserted now originalUrl validity customCode urlMap
      /\ drawn' = drawn)
  \/ (url_ok originalUrl = true /\ customCode = ""
      /\ exists newCode,
           generate nanoid6 fuel urlMap drawn = Some (newCode, drawn')
           /\ view' = accepted origin newCode
           /\ urlMap' = inserted now originalUrl validity newCode urlMap).
Proof.
  destruct (url_ok originalUrl) eqn:Hu.
  2:{ rewrite handleSubmit_invalid_url by assumption.
      intros [= <- <- <-]. left. auto. }
  destruct customCode as [| c rest].
  - rewrite handleSubmit_generated by assumption.
    destruct (generate nanoid6 fuel urlMap drawn) as [[newCode d'] |] eqn:G;
      [| discriminate].
    intros [= <- <- <-]. do 4 right. eauto 10.
  - assert (Hne : String c rest <> "") by discriminate.
    destruct (shortcode_ok (String c rest)) eqn:Hs.
    2:{ rewrite handleSubmit_invalid_shortcode by auto.
        intros [= <- <- <-]. right. left. auto 10. }
    rewrite handleSubmit_custom by auto.
    destruct (truthy (get urlMap (String c rest))) eqn:T.
    + intros [= <- <- <-]. do 2 right. left. auto 10.
    + intros [= <- <- <-]. do 3 right. left.
      repeat split; auto.
      destruct (get urlMap (String c rest)); [discriminate .. | reflexivity].
Qed.

(** A code that the table does not answer for is no key and no property
    name of [Object.prototype]. *)
Lemma get_Undefined (urlMap : registry) key :
  get urlMap key = Undefined
  <-> urlMap !! key = None /\ inherited_name key = false.
Proof.
  unfold get. destruct (urlMap !! key); [split; [discriminate | intros [? _]; discriminate] |].
  destruct (inherited_name key); split; try discriminate; auto.
  intros [_ ?]. discriminate.
Qed.

Lemma truthy_get (urlMap : registry) key :
  truthy (get urlMap key) = true
  <-> is_Some (urlMap !! key) \/ inherited_name key = true.
Proof.
  unfold get. destruct (urlMap !! key) as [r |].
  - split; [intros _; left; eauto | reflexivity].
  - destruct (inherited_name key).
    + split; [intros _; now right | reflexivity].
    + split; [discriminate |].
      intros [Hs | Hi]; [destruct Hs as [r Hr] |]; discriminate.
Qed.

(** X1: the submit shows the [InvalidUrl] message exactly when the URL
    does not begin with [http://] or [https://] followed by a character
    that is no line terminator; the other fields have no say. *)
Theorem X1_invalid_url_shown_iff fuel now (urlMap : registry) drawn view
    originalUrl customCode validity view' urlMap' drawn' :
  handleSubmit origin nanoid6 fuel now urlMap drawn view
    originalUrl customCode validity = Some (view', urlMap', drawn') ->
  failed_with InvalidUrl view'
  <-> ~ exists c rest,
          (originalUrl = "http://" ++ String c rest
           \/ originalUrl = "https://" ++ String c rest)
          /\ line_terminator c = false.
Proof.
  intros H. rewrite <- url_ok_spec.
  apply handleSubmit_classify in H
    as [(Hu & -> & _) | [(Hu & _ & _ & -> & _) | [(Hu & _ & _ & _ & -> & _)
       | [(Hu & _ & _ & _ & -> & _) | (Hu & _ & c & _ & -> & _)]]]];
    rewrite Hu; unfold failed_with; cbn; split; try congruence;
    try (intros F; now elim F).
Qed.

(** X2: with a URL that passes, the submit shows the [InvalidShortcode]
    message exactly when the custom code is not empty and fails the
    pattern, and the [DuplicateShortcode] message exactly when it is not
    empty, matches the pattern and is a key of the table or a property
    name of [Object.prototype]. *)
Theorem X2_shortcode_errors_iff fuel now (urlMap : registry) drawn view
    originalUrl customCode validity view' urlMap' drawn' :
  url_ok originalUrl = true ->
  handleSubmit origin nanoid6 fuel now urlMap drawn view
    originalUrl customCode validity = Some (view', urlMap', drawn') ->
  (failed_with InvalidShortcode view'
   <-> customCode <> "" /\ shortcode_ok customCode = false)
  /\ (failed_with DuplicateShortcode view'
      <-> customCode <> "" /\ shortcode_ok customCode = true
          /\ (is_Some (urlMap !! customCode)
              \/ inherited_name customCode = true)).
Proof.
  intros Hu H. rewrite <- truthy_get.
  apply handleSubmit_classify in H
    as [(Hu' & _) | [(_ & Hc & Hs & -> & _) | [(_ & Hc & Hs & Ht & -> & _)
       | [(_ & Hc & Hs & Hg & -> & _) | (_ & Hc & c & _ & -> & _)]]]];
    [congruence | ..]; unfold failed_with; cbn.
  - split; split; auto; try discriminate. intros (_ & Hs' & _). congruence.
  - split; split; auto; try discriminate. intros [_ Hs']. congruence.
  - rewrite Hg. cbn. split; split; try discriminate.
    + intros [_ Hs']. congruence.
    + intros (_ & _ & ?). discriminate.
  - subst customCode. split; split; try discriminate.
    + intros [F _]. now elim F.
    + intros [F _]. now elim F.
Qed.

(** A submit that succeeds inserts under a code that was no key. *)
Lemma handleSubmit_success fuel now (urlMap : registry) drawn view
    originalUrl customCode validity view' urlMap' drawn' :
  handleSubmit origin nanoid6 fuel now urlMap drawn view
    originalUrl customCode validity = Some (view', urlMap', drawn') ->
  error view' = None ->
  exists shortcode,
    view' = accepted origin shortcode
    /\ urlMap' = inserted now originalUrl validity shortcode urlMap
    /\ urlMap !! shortcode = None
    /\ inherited_name shortcode = false
    /\ url_ok originalUrl = true
    /\ (customCode <> "" ->
        shortcode = customCode /\ shortcode_ok customCode = true)
    /\ (customCode = "" ->
        generate nanoid6 fuel urlMap drawn = Some (shortcode, drawn')).
Proof.
  intros H Herr.
  apply handleSubmit_classify in H
    as [(_ & -> & _) | [(_ & _ & _ & -> & _) | [(_ & _ & _ & _ & -> & _)
       | [(Hu & Hc & Hs & Hg & -> & -> & _) | (Hu & Hc & c & G & -> & ->)]]]];
    try discriminate.
  - apply get_Undefined in Hg as [Hn Hi]. exists customCode.
    repeat split; auto. intros F. now elim Hc.
  - destruct (generate_sound _ _ _ _ _ _ G) as (k & _ & _ & Hg & _).
    apply get_Undefined in Hg as [Hn Hi]. exists c.
    repeat split; auto; congruence.
Qed.

(** X3: a submit never changes or removes an entry that was in the table;
    when it succeeds the table has exactly one entry more, and when it
    fails the table has as many entries as before. *)
Theorem X3_submit_keeps_entries fuel now (urlMap : registry) drawn view
    originalUrl customCode validity view' urlMap' drawn' :
  handleSubmit origin nanoid6 fuel now urlMap drawn view
    originalUrl customCode validity = Some (view', urlMap', drawn') ->
  (forall key record,
     urlMap !! key = Some record -> urlMap' !! key = Some record)
  /\ (error view' = None -> size urlMap' = S (size urlMap))
  /\ (error view' <> None -> size urlMap' = size urlMap).
Proof.
  intros H. destruct (error view') as [msg |] eqn:Herr.
  - assert (urlMap' = urlMap) as ->.
    { apply handleSubmit_cases in H as [(f & _ & -> & _) | (c & -> & _)];
        [reflexivity | discriminate]. }
    repeat split; auto. discriminate.
  - destruct (handleSubmit_success _ _ _ _ _ _ _ _ _ _ _ H Herr)
      as (c & _ & -> & Hn & _).
    unfold inserted. repeat split.
    + intros key record Hk. rewrite lookup_insert_ne; [exact Hk |].
      intros ->. congruence.
    + intros _. now apply map_size_insert_None.
    + intros F. now elim F.
Qed.

(** X4: with no custom code and a URL that passes, the code used is the
    first draw that is no key of the table: the draws before it are all
    keys, and [nanoid] has been called once more than there were
    collisions.  A submit with a custom code never calls [nanoid]. *)
Theorem X4_first_free_draw fuel now (urlMap : registry) drawn view
    originalUrl customCode validity view' urlMap' drawn' :
  handleSubmit origin nanoid6 fuel now urlMap drawn view
    originalUrl customCode validity = Some (view', urlMap', drawn') ->
  (customCode <> "" -> drawn' = drawn)
  /\ (customCode = "" -> url_ok originalUrl = true ->
      exists k : nat,
        drawn' = S (drawn + k)
        /\ shortUrl view' = Some (origin ++ "/" ++ nanoid6 (drawn + k)%nat)
        /\ urlMap !! nanoid6 (drawn + k)%nat = None
        /\ forall j : nat, (j < k)%nat ->
             is_Some (urlMap !! nanoid6 (drawn + j)%nat)).
Proof.
  intros H.
  apply handleSubmit_classify in H
    as [(Hu & _ & _ & ->) | [(_ & Hc & _ & _ & _ & ->)
       | [(_ & Hc & _ & _ & _ & _ & ->)
       | [(_ & Hc & _ & _ & _ & _ & ->) | (_ & Hc & c & G & -> & _)]]]];
    split; try reflexivity; try congruence.
  intros _ _.
  destruct (generate_sound _ _ _ _ _ _ G) as (k & -> & -> & Hg & Hbefore).
  apply get_Undefined in Hg as [Hn _].
  exists k. repeat split; auto.
  intros j Hj. specialize (Hbefore j Hj).
  apply truthy_get in Hbefore as [Hs | Hi]; [exact Hs |].
  apply inherited_name_length in Hi. now elim Hi.
Qed.

(** X5: once a submit with a custom code has succeeded, every later
    submit with the same code and a URL that passes fails with
    [DuplicateShortcode] and changes nothing, at whatever instant: an
    entry that has expired but has not been visited still holds its
    code. *)
Theorem X5_custom_code_stays_taken fuel now (urlMap : registry) drawn view
    originalUrl customCode validity view' urlMap' drawn'
    fuel2 now2 drawn2 view2 originalUrl2 validity2 :
  customCode <> "" ->
  handleSubmit origin nanoid6 fuel now urlMap drawn view
    originalUrl customCode validity = Some (view', urlMap', drawn') ->
  error view' = None ->
  url_ok originalUrl2 = true ->
  handleSubmit origin nanoid6 fuel2 now2 urlMap' drawn2 view2
    originalUrl2 customCode validity2
  = Some (rejected DuplicateShortcode view2, urlMap', drawn2).
Proof.
  intros Hc H Herr Hu2.
  destruct (handleSubmit_success _ _ _ _ _ _ _ _ _ _ _ H Herr)
    as (c & _ & -> & _ & _ & _ & Hcustom & _).
  destruct (Hcustom Hc) as [-> Hs].
  eapply handleSubmit_duplicate; auto.
  unfold inserted. apply lookup_insert_eq.
Qed.


Lemma inserted_lookup now originalUrl validity shortcode (urlMap : registry) :
  inserted now originalUrl validity shortcode urlMap !! shortcode
  = Some {| originalUrl := originalUrl;
            expiry := now + validity_or_30 validity * 60 * 1000 |}.
Proof. unfold inserted. apply lookup_insert_eq. Qed.

(** X7: what [Redirector] does with the code of a successful submit,
    when it is the view that gets it.  (The router gives the path of a
    short URL to [Redirector] only when no other route takes it: the
    custom code [stats] is accepted, and its path is the one of the
    listing.)  A run of the effect for that code at any instant up to the
    stored expiry, that instant included, arms the redirect to
    [originalUrl], due one second later, and leaves the table and the
    text of the view as they were. *)
Theorem X7_created_code_redirects fuel now (urlMap : registry) drawn view
    originalUrl customCode validity view' urlMap' drawn' :
  handleSubmit origin nanoid6 fuel now urlMap drawn view
    originalUrl customCode validity = Some (view', urlMap', drawn') ->
  error view' = None ->
  exists shortcode,
    shortUrl view' = Some (origin ++ "/" ++ shortcode)
    /\ forall t rview,
         t <= now + validity_or_30 validity * 60000 ->
         Redirector_effect t shortcode urlMap' rview
         = ({| message := message rview;
               pending := (pending rview ++
                           [ {| armed_for := shortcode; due := t + 1000;
                                href := Some originalUrl |} ])%list |},
            urlMap').
Proof.
  intros H Herr.
  destruct (handleSubmit_success _ _ _ _ _ _ _ _ _ _ _ H Herr)
    as (c & -> & -> & _).
  exists c. split; [reflexivity |]. intros t rview Ht.
  rewrite (Redirector_effect_valid _ _ _ _ _ (inserted_lookup _ _ _ _ _))
    by (cbn; lia).
  reflexivity.
Qed.

(** X8: how long a created entry lives, as long as the numbers involved
    are safe integers.  When [parseInt] reads a negative
    number from the validity field the entry is stored already expired,
    and a visit of its code at the creation instant or later shows
    [Expired] and removes it.  In every other case the entry expires at
    least one minute after the creation instant. *)
Theorem X8_lifetime_of_created_entry fuel now (urlMap : registry) drawn view
    originalUrl customCode validity view' urlMap' drawn' :
  handleSubmit origin nanoid6 fuel now urlMap drawn view
    originalUrl customCode validity = Some (view', urlMap', drawn') ->
  error view' = None ->
  exact_expiry now (validity_or_30 validity) ->
  exists shortcode record,
    shortUrl view' = Some (origin ++ "/" ++ shortcode)
    /\ urlMap' !! shortcode = Some record
    /\ (forall n, parseInt validity = Some n -> n < 0 ->
          expiry record = now + n * 60000
          /\ forall t rview, now <= t ->
               Redirector_effect t shortcode urlMap' rview
               = ({| message := Expired; pending := pending rview |},
                  removeExpired shortcode urlMap'))
    /\ ((forall n, parseInt validity = Some n -> 0 <= n) ->
        now + 60000 <= expiry record).
Proof.
  intros H Herr _.
  destruct (handleSubmit_success _ _ _ _ _ _ _ _ _ _ _ H Herr)
    as (c & -> & -> & _).
  exists c. eexists. split; [reflexivity |].
  split; [unfold inserted; apply lookup_insert_eq |].
  unfold validity_or_30. cbn [expiry]. split.
  - intros n Hp Hn. rewrite Hp.
    replace (n =? 0) with false by (symmetry; apply Z.eqb_neq; lia).
    split; [lia |]. intros t rview Ht.
    apply (Redirector_effect_expired _ _ _ _ _ (inserted_lookup _ _ _ _ _)).
    cbn. unfold validity_or_30. rewrite Hp.
    replace (n =? 0) with false by (symmetry; apply Z.eqb_neq; lia). lia.
  - intros Hpos. destruct (parseInt validity) as [n |]; [| lia].
    specialize (Hpos n eq_refl).
    destruct (n =? 0) eqn:E; [lia |]. apply Z.eqb_neq in E. lia.
Qed.


(** X10: a run of the effect turns the text to [NotFound] exactly when
    the code is no key of the table and no property name of
    [Object.prototype]; it then arms no timer and leaves the table as it
    is. *)
Theorem X10_not_found_iff now code (urlMap : registry) view :
  (urlMap !! code = None -> inherited_name code = false ->
   Redirector_effect now code urlMap view
   = ({| message := NotFound; pending := pending view |}, urlMap))
  /\ (message view <> NotFound ->
      message (Redirector_effect now code urlMap view).1 = NotFound
      <-> urlMap !! code = None /\ inherited_name code = false).
Proof.
  assert (Hnf : urlMap !! code = None -> inherited_name code = false ->
                Redirector_effect now code urlMap view
                = ({| message := NotFound; pending := pending view |},
                   urlMap)).
  { intros Hn Hi. unfold Redirector_effect, get. now rewrite Hn, Hi. }
  split; [exact Hnf |]. intros Hview. split.
  - unfold Redirector_effect, get.
    destruct (urlMap !! code) as [record |].
    + cbn. destruct (expiry record <? now); cbn; [discriminate |].
      intros F. now elim Hview.
    + destruct (inherited_name code); cbn; [| auto].
      intros F. now elim Hview.
  - intros [Hn Hi]. now rewrite Hnf.
Qed.

(** X11: a visit of a code that is no key of the table but is a property
    name of [Object.prototype] (["constructor"], ["toString"], ...) is not
    reported as unknown: the effect finds the inherited value, whose
    [expiry] is [undefined], and arms a redirect whose target is
    [undefined]. *)
Theorem X11_prototype_name_is_not_unknown now code (urlMap : registry) view :
  urlMap !! code = None -> inherited_name code = true ->
  Redirector_effect now code urlMap view
  = ({| message := message view;
        pending := (pending view ++
                    [ {| armed_for := code; due := now + 1000;
                         href := None |} ])%list |},
     urlMap).
Proof.
  intros Hn Hi. unfold Redirector_effect, get. now rewrite Hn, Hi.
Qed.

(** X12: a run of the effect never inserts and never changes a record.
    It leaves every other code alone, and it leaves the visited code
    alone too unless that code has a record whose expiry is strictly
    before the current instant. *)
Theorem X12_effect_only_removes_expired now code (urlMap : registry) view :
  let urlMap' := (Redirector_effect now code urlMap view).2 in
  (forall key, key <> code -> urlMap' !! key = urlMap !! key)
  /\ (forall key record,
        urlMap' !! key = Some record -> urlMap !! key = Some record)
  /\ (urlMap' <> urlMap ->
      exists record, urlMap !! code = Some record /\ expiry record < now).
Proof.
  cbn zeta. unfold Redirector_effect.
  destruct (negb (truthy (get urlMap code))) eqn:T; cbn [snd].
  { repeat split; auto. intros F. now elim F. }
  destruct (js_gt now (expiry_of (get urlMap code))) eqn:G; cbn [snd].
  2:{ repeat split; auto. intros F. now elim F. }
  unfold removeExpired. split; [| split].
  - intros key Hk. now apply lookup_delete_ne.
  - intros key record. rewrite lookup_delete_Some. tauto.
  - intros _. unfold get in G.
    destruct (urlMap !! code) as [record |].
    + exists record. split; [reflexivity | now apply Z.ltb_lt].
    + destruct (inherited_name code); discriminate G.
Qed.

(** X13: the effect never writes the text ['Redirecting...'].  When the
    view shows [NotFound] or [Expired] for an earlier code and the code
    changes to one with a record that has not expired, the redirect is
    armed while the view keeps the earlier text. *)
Theorem X13_text_not_reset now code (urlMap : registry) view record :
  urlMap !! code = Some record -> now <= expiry record ->
  message view <> Redirecting ->
  let view' := (Redirector_effect now code urlMap view).1 in
  message view' = message view
  /\ message view' <> Redirecting
  /\ In {| armed_for := code; due := now + 1000;
           href := Some (originalUrl record) |} (pending view').
Proof.
  intros Hr Hle Hview. cbn zeta.
  rewrite (Redirector_effect_valid _ _ _ _ _ Hr Hle). cbn.
  repeat split; auto. apply in_or_app. right. now left.
Qed.

(** X14: a run of the effect arms at most one timer, and none for a code
    whose record has expired. *)
Theorem X14_at_most_one_timer now code (urlMap : registry) view :
  let view' := (Redirector_effect now code urlMap view).1 in
  (length (pending view') <= S (length (pending view)))%nat
  /\ (forall record,
        urlMap !! code = Some record -> expiry record < now ->
        pending view' = pending view).
Proof.
  cbn zeta. split.
  - unfold Redirector_effect.
    destruct (negb (truthy (get urlMap code))); cbn; [lia |].
    destruct (js_gt now (expiry_of (get urlMap code))); cbn; [lia |].
    rewrite length_app. cbn. lia.
  - intros record Hr Hlt.
    now rewrite (Redirector_effect_expired _ _ _ _ _ Hr Hlt).
Qed.

(** What a run of the effect leaves in the table was there before. *)
Lemma Redirector_effect_lookup_Some now code (urlMap : registry) view key
    record :
  (Redirector_effect now code urlMap view).2 !! key = Some record ->
  urlMap !! key = Some record.
Proof.
  unfold Redirector_effect.
  destruct (negb (truthy (get urlMap code))); cbn [snd]; [auto |].
  destruct (js_gt now (expiry_of (get urlMap code))); cbn [snd]; [| auto].
  unfold removeExpired. rewrite lookup_delete_Some. tauto.
Qed.

(** The entries of a table that the application can hold. *)
Lemma reachable_entries (urlMap : registry) key record :
  reachable origin nanoid6 urlMap -> urlMap !! key = Some record ->
  url_ok (originalUrl record) = true
  /\ inherited_name key = false
  /\ (String.length key = 6%nat \/ shortcode_ok key = true).
Proof.
  intros Hreach. revert key record.
  induction Hreach as [| fuel now urlMap drawn view url cc validity view'
                         urlMap' drawn' _ IH H | now code urlMap view _ IH];
    intros key record Hk.
  - now rewrite lookup_empty in Hk.
  - destruct (error view') as [msg |] eqn:Herr.
    + apply handleSubmit_cases in H as [(f & _ & -> & _) | (c & -> & _)];
        [eauto | discriminate].
    + destruct (handleSubmit_success _ _ _ _ _ _ _ _ _ _ _ H Herr)
        as (c & _ & -> & _ & Hi & Hu & Hcustom & Hgen).
      unfold inserted in Hk.
      destruct (decide (c = key)) as [-> | Hne].
      * rewrite lookup_insert_eq in Hk. injection Hk as <-. cbn.
        repeat split; auto.
        destruct (decide (cc = "")) as [He | Hne].
        -- left.
           now destruct (generate_length _ nanoid6_length _ _ _ _ _ (Hgen He)).
        -- right. now destruct (Hcustom Hne) as [-> ?].
      * rewrite lookup_insert_ne in Hk by assumption. eauto.
  - apply Redirector_effect_lookup_Some in Hk. eauto.
Qed.

(** X15: in every table that the application can hold, starting from the
    empty one and going through submits and visits in any order, each
    stored URL passes the URL check, and each key is no property name of
    [Object.prototype] and either has six characters or matches the
    shortcode pattern. *)
Theorem X15_reachable_tables_are_well_formed (urlMap : registry) key record :
  reachable origin nanoid6 urlMap -> urlMap !! key = Some record ->
  (exists c rest,
     (originalUrl record = "http://" ++ String c rest
      \/ originalUrl record = "https://" ++ String c rest)
     /\ line_terminator c = false)
  /\ inherited_name key = false
  /\ (String.length key = 6%nat \/ shortcode_ok key = true).
Proof.
  intros Hreach Hk. rewrite <- url_ok_spec.
  exact (reachable_entries urlMap key record Hreach Hk).
Qed.

(** X16: on a table that the application can hold, the only targets that
    a run of the effect ever arms a redirect to are a stored URL, which
    begins with [http://] or [https://], and, for a visited code that is
    no key, the value [undefined]. *)
Theorem X16_redirect_targets now code (urlMap : registry) view tm :
  reachable origin nanoid6 urlMap ->
  In tm (pending (Redirector_effect now code urlMap view).1) ->
  In tm (pending view)
  \/ (armed_for tm = code /\ due tm = now + 1000
      /\ ((href tm = None /\ urlMap !! code = None)
          \/ exists record,
               urlMap !! code = Some record
               /\ href tm = Some (originalUrl record)
               /\ now <= expiry record
               /\ url_ok (originalUrl record) = true)).
Proof.
  intros Hreach. unfold Redirector_effect.
  destruct (negb (truthy (get urlMap code))); cbn [fst pending]; [auto |].
  destruct (js_gt now (expiry_of (get urlMap code))) eqn:G;
    cbn [fst pending]; [auto |].
  intros [Hin | [<- | []]]%in_app_or; [auto |]. right. cbn.
  repeat split. unfold get in *.
  destruct (urlMap !! code) as [record |] eqn:Hr.
  - right. exists record. cbn in G. apply Z.ltb_ge in G.
    repeat split; auto.
    now destruct (reachable_entries _ _ _ Hreach Hr).
  - left. now destruct (inherited_name code).
Qed.

(** X17: for an entry and an instant that are safe integers, as is their
    difference, the minutes shown are never negative and are rounded
    down: they are 0 exactly when less than a minute is left or the entry
    has expired, and for an entry that has not expired they are the
    number of whole minutes left.  They never grow as time passes. *)
Theorem X17_expiresInMin_rounds_down now record :
  safe_integer now -> safe_integer (expiry record) ->
  safe_integer (expiry record - now) ->
  0 <= expiresInMin now record
  /\ (expiresInMin now record = 0 <-> expiry record - now < 60000)
  /\ (now <= expiry record ->
      expiresInMin now record * 60000 <= expiry record - now
      < (expiresInMin now record + 1) * 60000)
  /\ (forall later,
        now <= later -> safe_integer later ->
        safe_integer (expiry record - later) ->
        expiresInMin later record <= expiresInMin now record).
Proof.
  intros _ _ _. unfold expiresInMin. cbn zeta.
  pose proof (Z.div_mod (expiry record - now) 60000 ltac:(lia)) as Hdm.
  pose proof (Z.mod_pos_bound (expiry record - now) 60000 ltac:(lia)) as Hm.
  repeat split; try lia.
  intros later Hlater _ _.
  assert ((expiry record - later) / 60000 <= (expiry record - now) / 60000)
    by (apply Z.div_le_mono; lia).
  lia.
Qed.

(** X18: as long as the numbers involved are safe integers, at the
    creation instant the listing shows, for the new entry,
    the number of minutes read from the validity field when that number
    is positive, 30 when the field gives no number or 0, and 0 when the
    number is negative. *)
Theorem X18_minutes_shown_at_creation fuel now (urlMap : registry) drawn view
    originalUrl customCode validity view' urlMap' drawn' :
  handleSubmit origin nanoid6 fuel now urlMap drawn view
    originalUrl customCode validity = Some (view', urlMap', drawn') ->
  error view' = None ->
  exact_expiry now (validity_or_30 validity) ->
  exists shortcode record,
    shortUrl view' = Some (origin ++ "/" ++ shortcode)
    /\ urlMap' !! shortcode = Some record
    /\ (forall n, parseInt validity = Some n -> 0 < n ->
          expiresInMin now record = n)
    /\ (parseInt validity = None \/ parseInt validity = Some 0 ->
        expiresInMin now record = 30)
    /\ (forall n, parseInt validity = Some n -> n < 0 ->
          expiresInMin now record = 0).
Proof.
  intros H Herr _.
  destruct (handleSubmit_success _ _ _ _ _ _ _ _ _ _ _ H Herr)
    as (c & -> & -> & _).
  exists c. eexists. split; [reflexivity |].
  split; [apply inserted_lookup |].
  unfold expiresInMin, validity_or_30. cbn [expiry].
  assert (Hdiv : forall v, (now + v * 60 * 1000 - now) / 60000 = v).
  { intros v. replace (now + v * 60 * 1000 - now) with (v * 60000) by lia.
    now apply Z.div_mul. }
  rewrite Hdiv. repeat split.
  - intros n -> Hn.
    replace (n =? 0) with false by (symmetry; apply Z.eqb_neq; lia). lia.
  - intros [-> | ->]; reflexivity.
  - intros n -> Hn.
    replace (n =? 0) with false by (symmetry; apply Z.eqb_neq; lia). lia.
Qed.

(** X19: the listing shows its empty state exactly when the table has no
    key of its own; after a successful submit it shows a table. *)
Theorem X19_empty_state fuel now (urlMap : registry) drawn view
    originalUrl customCode validity :
  (Stats_empty urlMap = true <-> forall key, urlMap !! key = None)
  /\ (forall view' urlMap' drawn',
        handleSubmit origin nanoid6 fuel now urlMap drawn view
          originalUrl customCode validity = Some (view', urlMap', drawn') ->
        error view' = None -> Stats_empty urlMap' = false).
Proof.
  split.
  - unfold Stats_empty. rewrite Nat.eqb_eq, map_size_empty_iff.
    apply map_empty.
  - intros view' urlMap' drawn' H Herr.
    destruct (handleSubmit_success _ _ _ _ _ _ _ _ _ _ _ H Herr)
      as (c & _ & -> & Hn & _).
    unfold Stats_empty, inserted.
    now rewrite map_size_insert_None.
Qed.

Lemma append_inj_r (p a b : string) : p ++ a = p ++ b -> a = b.
Proof.
  induction p as [| c p IH]; [auto |].
  change (String c (p ++ a) = String c (p ++ b) -> a = b).
  intros [= H]. auto.
Qed.

(** X20: a submit that fails leaves the short URL that was on display
    where it was, beside the new error text; a submit that succeeds
    replaces both, whatever error was shown before. *)
Theorem X20_failure_keeps_short_url fuel now (urlMap : registry) drawn view
    originalUrl customCode validity view' urlMap' drawn' :
  handleSubmit origin nanoid6 fuel now urlMap drawn view
    originalUrl customCode validity = Some (view', urlMap', drawn') ->
  (error view' <> None -> shortUrl view' = shortUrl view)
  /\ (error view' = None -> is_Some (shortUrl view'))
  /\ (error view' = None \/ is_Some (shortUrl view) ->
      is_Some (shortUrl view')).
Proof.
  intros H.
  apply handleSubmit_cases in H as [(f & -> & _) | (c & -> & _)]; cbn.
  - repeat split; auto; [discriminate |]. intros [F | Hs]; [discriminate | auto].
  - repeat split; eauto. intros F. now elim F.
Qed.

(** X21: two submits in a row that both succeed give two different short
    URLs, with or without custom codes. *)
Theorem X21_consecutive_short_urls_differ fuel now (urlMap : registry) drawn
    view originalUrl customCode validity view1 urlMap1 drawn1
    fuel2 now2 originalUrl2 customCode2 validity2 view2 urlMap2 drawn2 :
  handleSubmit origin nanoid6 fuel now urlMap drawn view
    originalUrl customCode validity = Some (view1, urlMap1, drawn1) ->
  error view1 = None ->
  handleSubmit origin nanoid6 fuel2 now2 urlMap1 drawn1 view1
    originalUrl2 customCode2 validity2 = Some (view2, urlMap2, drawn2) ->
  error view2 = None ->
  shortUrl view2 <> shortUrl view1 /\ size urlMap2 = S (S (size urlMap)).
Proof.
  intros H1 He1 H2 He2.
  destruct (handleSubmit_success _ _ _ _ _ _ _ _ _ _ _ H1 He1)
    as (c1 & -> & -> & Hn1 & _).
  destruct (handleSubmit_success _ _ _ _ _ _ _ _ _ _ _ H2 He2)
    as (c2 & -> & -> & Hn2 & _).
  split.
  - unfold accepted. cbn [shortUrl]. intros [= E].
    do 2 apply append_inj_r in E. subst c2.
    rewrite inserted_lookup in Hn2. discriminate.
  - unfold inserted in *. now rewrite !map_size_insert_None.
Qed.


End Further.

(** ** Concrete runs of the further properties *)

Lemma X1_witness :
  ~ exists c rest,
      ("ftp://bad" = "http://" ++ String c rest
       \/ "ftp://bad" = "https://" ++ String c rest)
      /\ line_terminator c = false.
Proof.
  apply (proj1 (X1_invalid_url_shown_iff "http://localhost:3000"
                  (fun _ => "abcdef") 1 1000 ∅ 0 HomeView_initial
                  "ftp://bad" "mycode" "30"
                  (rejected InvalidUrl HomeView_initial) ∅ 0%nat eq_refl)).
  reflexivity.
Defined.

Lemma X2_witness : "abc" <> "" /\ shortcode_ok "abc" = false.
Proof.
  apply (proj1 (proj1 (X2_shortcode_errors_iff "http://localhost:3000"
                         (fun _ => "abcdef") 1 1000 ∅ 0 HomeView_initial
                         "https://a.com" "abc" "30"
                         (rejected InvalidShortcode HomeView_initial) ∅ 0%nat
                         eq_refl eq_refl))).
  reflexivity.
Defined.

Lemma X3_witness :
  size (inserted 1000 "https://a.com" "30" "mycode" ∅)
  = S (size (∅ : registry)).
Proof.
  refine (proj1 (proj2 (X3_submit_keeps_entries "http://localhost:3000"
                          (fun _ => "abcdef") 1 1000 ∅ 0 HomeView_initial
                          "https://a.com" "mycode" "30"
                          (accepted "http://localhost:3000" "mycode")
                          (inserted 1000 "https://a.com" "30" "mycode" ∅)
                          0%nat _)) _);
    reflexivity.
Defined.

Lemma X4_witness :
  let nanoid6 := fun i : nat =>
                   match i with O => "taken1" | _ => "free22" end in
  let urlMap : registry :=
    <["taken1" := {| originalUrl := "https://b.com"; expiry := 5 |}]> ∅ in
  exists k : nat,
    2%nat = S (0 + k)
    /\ shortUrl (accepted "http://localhost:3000" "free22")
       = Some ("http://localhost:3000" ++ "/" ++ nanoid6 (0 + k)%nat)
    /\ urlMap !! nanoid6 (0 + k)%nat = None
    /\ forall j : nat, (j < k)%nat ->
         is_Some (urlMap !! nanoid6 (0 + j)%nat).
Proof.
  intros nanoid6 urlMap.
  refine (proj2 (X4_first_free_draw "http://localhost:3000" nanoid6
                   (fun i => match i with O => eq_refl | _ => eq_refl end)
                   2 1000 urlMap 0 HomeView_initial "https://a.com" "" "30"
                   (accepted "http://localhost:3000" "free22")
                   (inserted 1000 "https://a.com" "30" "free22" urlMap)
                   2%nat _) _ _);
    reflexivity.
Defined.

Lemma X5_witness :
  let urlMap' := inserted 1000 "https://a.com" "1" "mycode" ∅ in
  handleSubmit "http://localhost:3000" (fun _ => "abcdef") 1 900000000
    urlMap' 0 HomeView_initial "https://b.com" "mycode" "30"
  = Some (rejected DuplicateShortcode HomeView_initial, urlMap', 0%nat).
Proof.
  intros urlMap'.
  apply (X5_custom_code_stays_taken "http://localhost:3000"
           (fun _ => "abcdef") 1 1000 ∅ 0 HomeView_initial
           "https://a.com" "mycode" "1"
           (accepted "http://localhost:3000" "mycode") urlMap' 0%nat);
    [discriminate | reflexivity ..].
Defined.


Lemma X7_witness :
  exists shortcode,
    shortUrl (accepted "http://localhost:3000" "mycode")
    = Some ("http://localhost:3000" ++ "/" ++ shortcode)
    /\ forall t rview,
         t <= 1000 + validity_or_30 "1" * 60000 ->
         Redirector_effect t shortcode
           (inserted 1000 "https://a.com" "1" "mycode" ∅) rview
         = ({| message := message rview;
               pending := (pending rview ++
                           [ {| armed_for := shortcode; due := t + 1000;
                                href := Some "https://a.com" |} ])%list |},
            inserted 1000 "https://a.com" "1" "mycode" ∅).
Proof.
  apply (X7_created_code_redirects "http://localhost:3000"
           (fun _ => "abcdef") 1 1000 ∅ 0 HomeView_initial
           "https://a.com" "mycode" "1" _ _ 0%nat);
    reflexivity.
Defined.

Lemma X8_witness :
  exists shortcode record,
    shortUrl (accepted "http://localhost:3000" "mycode")
    = Some ("http://localhost:3000" ++ "/" ++ shortcode)
    /\ inserted 1000000 "https://a.com" "-5" "mycode" ∅ !! shortcode
       = Some record
    /\ (forall n, parseInt "-5" = Some n -> n < 0 ->
          expiry record = 1000000 + n * 60000
          /\ forall t rview, 1000000 <= t ->
               Redirector_effect t shortcode
                 (inserted 1000000 "https://a.com" "-5" "mycode" ∅) rview
               = ({| message := Expired; pending := pending rview |},
                  removeExpired shortcode
                    (inserted 1000000 "https://a.com" "-5" "mycode" ∅)))
    /\ ((forall n, parseInt "-5" = Some n -> 0 <= n) ->
        1000000 + 60000 <= expiry record).
Proof.
  apply (X8_lifetime_of_created_entry "http://localhost:3000"
           (fun _ => "abcdef") 1 1000000 ∅ 0 HomeView_initial
           "https://a.com" "mycode" "-5" _ _ 0%nat);
    [reflexivity | reflexivity | vm_compute; discriminate].
Defined.


Lemma X10_witness :
  Redirector_effect 1000 "nosuch" ∅ RedirectorView_initial
  = ({| message := NotFound; pending := [] |}, ∅).
Proof.
  apply (proj1 (X10_not_found_iff 1000 "nosuch" ∅ RedirectorView_initial));
    reflexivity.
Defined.

Lemma X11_witness :
  Redirector_effect 1000 "constructor" ∅ RedirectorView_initial
  = ({| message := Redirecting;
        pending := [ {| armed_for := "constructor"; due := 2000;
                        href := None |} ] |}, ∅).
Proof.
  apply (X11_prototype_name_is_not_unknown 1000 "constructor" ∅
           RedirectorView_initial);
    reflexivity.
Defined.

Lemma X12_witness :
  let urlMap : registry :=
    <["first" := {| originalUrl := "https://a.com"; expiry := 500 |}]>
      (<["second" := {| originalUrl := "https://b.com"; expiry := 500 |}]>
         ∅) in
  (Redirector_effect 1000 "first" urlMap RedirectorView_initial).2 !! "second"
  = urlMap !! "second".
Proof.
  intros urlMap.
  apply (proj1 (X12_effect_only_removes_expired 1000 "first" urlMap
                  RedirectorView_initial)).
  discriminate.
Defined.

Lemma X13_witness :
  let record := {| originalUrl := "https://a.com"; expiry := 5000 |} in
  let urlMap : registry := <["abcd" := record]> ∅ in
  let view := (Redirector_effect 1000 "nosuch" urlMap
                 RedirectorView_initial).1 in
  let view' := (Redirector_effect 2000 "abcd" urlMap view).1 in
  message view' = message view
  /\ message view' <> Redirecting
  /\ In {| armed_for := "abcd"; due := 2000 + 1000;
           href := Some "https://a.com" |} (pending view').
Proof.
  intros record urlMap view.
  apply (X13_text_not_reset 2000 "abcd" urlMap view record);
    [reflexivity | cbn; lia | discriminate].
Defined.

Lemma X14_witness :
  let record := {| originalUrl := "https://a.com"; expiry := 500 |} in
  let urlMap : registry := <["abcd" := record]> ∅ in
  pending (Redirector_effect 1000 "abcd" urlMap RedirectorView_initial).1
  = [].
Proof.
  intros record urlMap.
  apply (proj2 (X14_at_most_one_timer 1000 "abcd" urlMap
                  RedirectorView_initial) record);
    [reflexivity | cbn; lia].
Defined.

Lemma X15_witness :
  (exists c rest,
     ("https://a.com" = "http://" ++ String c rest
      \/ "https://a.com" = "https://" ++ String c rest)
     /\ line_terminator c = false)
  /\ inherited_name "mycode" = false
  /\ (String.length "mycode" = 6%nat \/ shortcode_ok "mycode" = true).
Proof.
  refine (X15_reachable_tables_are_well_formed "http://localhost:3000"
            (fun _ => "abcdef") (fun _ => eq_refl)
            (inserted 1000 "https://a.com" "30" "mycode" ∅) "mycode"
            {| originalUrl := "https://a.com"; expiry := 1801000 |} _ _).
  - refine (reachable_submit _ _ 1 1000 ∅ 0 HomeView_initial
              "https://a.com" "mycode" "30"
              (accepted "http://localhost:3000" "mycode") _ 0%nat
              (reachable_initial _ _) _).
    reflexivity.
  - reflexivity.
Defined.

Lemma X16_witness :
  let urlMap := inserted 1000 "https://a.com" "30" "mycode" ∅ in
  let tm := {| armed_for := "mycode"; due := 3000;
               href := Some "https://a.com" |} in
  In tm (pending RedirectorView_initial)
  \/ (armed_for tm = "mycode" /\ due tm = 2000 + 1000
      /\ ((href tm = None /\ urlMap !! "mycode" = None)
          \/ exists record,
               urlMap !! "mycode" = Some record
               /\ href tm = Some (originalUrl record)
               /\ 2000 <= expiry record
               /\ url_ok (originalUrl record) = true)).
Proof.
  intros urlMap tm.
  refine (X16_redirect_targets "http://localhost:3000" (fun _ => "abcdef")
            (fun _ => eq_refl) 2000 "mycode" urlMap RedirectorView_initial
            tm _ _).
  - refine (reachable_submit _ _ 1 1000 ∅ 0 HomeView_initial
              "https://a.com" "mycode" "30"
              (accepted "http://localhost:3000" "mycode") _ 0%nat
              (reachable_initial _ _) _).
    reflexivity.
  - left. reflexivity.
Defined.

Lemma X17_witness :
  let record := {| originalUrl := "https://a.com"; expiry := 200000 |} in
  expiresInMin 1000 record * 60000 <= 200000 - 1000
  < (expiresInMin 1000 record + 1) * 60000.
Proof.
  intros record.
  refine (proj1 (proj2 (proj2 (X17_expiresInMin_rounds_down 1000 record
                                 _ _ _))) _);
    [vm_compute; discriminate .. | cbn; lia].
Defined.

Lemma X18_witness :
  exists shortcode record,
    shortUrl (accepted "http://localhost:3000" "mycode")
    = Some ("http://localhost:3000" ++ "/" ++ shortcode)
    /\ inserted 1000 "https://a.com" "45" "mycode" ∅ !! shortcode
       = Some record
    /\ (forall n, parseInt "45" = Some n -> 0 < n ->
          expiresInMin 1000 record = n)
    /\ (parseInt "45" = None \/ parseInt "45" = Some 0 ->
        expiresInMin 1000 record = 30)
    /\ (forall n, parseInt "45" = Some n -> n < 0 ->
          expiresInMin 1000 record = 0).
Proof.
  apply (X18_minutes_shown_at_creation "http://localhost:3000"
           (fun _ => "abcdef") 1 1000 ∅ 0 HomeView_initial
           "https://a.com" "mycode" "45" _ _ 0%nat);
    [reflexivity | reflexivity | vm_compute; discriminate].
Defined.

Lemma X19_witness :
  Stats_empty (inserted 1000 "https://a.com" "30" "mycode" ∅) = false.
Proof.
  refine (proj2 (X19_empty_state "http://localhost:3000" (fun _ => "abcdef")
                   1 1000 ∅ 0 HomeView_initial "https://a.com" "mycode" "30")
            (accepted "http://localhost:3000" "mycode") _ 0%nat _ _);
    reflexivity.
Defined.

Lemma X20_witness :
  let view := {| error := None;
                 shortUrl := Some "http://localhost:3000/old123" |} in
  shortUrl (rejected InvalidUrl view) = shortUrl view.
Proof.
  intros view.
  refine (proj1 (X20_failure_keeps_short_url "http://localhost:3000"
                   (fun _ => "abcdef") 1 1000 ∅ 0 view
                   "ftp://bad" "" "30" (rejected InvalidUrl view) ∅ 0%nat _)
            _).
  - reflexivity.
  - discriminate.
Defined.

Lemma X21_witness :
  let nanoid6 := fun i : nat =>
                   match i with
                   | O => "abcdef" | S O => "abcdef" | _ => "ghijkl"
                   end in
  let urlMap1 := inserted 1000 "https://a.com" "30" "abcdef" ∅ in
  let urlMap2 := inserted 2000 "https://b.com" "30" "ghijkl" urlMap1 in
  shortUrl (accepted "http://localhost:3000" "ghijkl")
  <> shortUrl (accepted "http://localhost:3000" "abcdef")
  /\ size urlMap2 = S (S (size (∅ : registry))).
Proof.
  intros nanoid6 urlMap1 urlMap2.
  refine (X21_consecutive_short_urls_differ "http://localhost:3000" nanoid6
            1 1000 ∅ 0 HomeView_initial "https://a.com" "" "30"
            (accepted "http://localhost:3000" "abcdef") urlMap1 1%nat
            2 2000 "https://b.com" "" "30"
            (accepted "http://localhost:3000" "ghijkl") urlMap2 3%nat
            _ _ _ _);
    reflexivity.
Defined.

